(** * Points, streak and achievement bookkeeping

    A shallow embedding of the daily-login procedure
    [public.handle_daily_login] (PL/pgSQL) and of the client hook
    [useAchievements] (TypeScript: [handleDailyLogin], [trackActivity]
    and the [fetchAchievementProgress] it ends with), with the three
    tables they read and write.

    Conventions.
    - A row identifier ([UUID] / [string]) is a [string]; a [DATE] is the
      number of its day, so that [CURRENT_DATE - INTERVAL '1 day'] is
      [today_date - 1]; a timestamp is a [Z].
    - A nullable column is an [option]; [NULL] is [None].
    - An [INTEGER] column or PL/pgSQL variable holds 32 bits.  PostgreSQL does
      not wrap: an addition that leaves the range, or a write of a value
      outside it, raises [numeric_value_out_of_range].
    - A statement that raises aborts the procedure, and the procedure's
      transaction is rolled back: none of its writes reaches the store.
    - A request of the client fails only for a reason the database gives;
      the network is not part of the model. *)

From stdpp Require Import gmap strings list pretty.
From Stdlib Require Import ZArith Lia.

#[local] Open Scope string_scope.
#[local] Open Scope Z_scope.

(** ** The record store *)

Module Store.

Abbreviation uuid := string.
Abbreviation date := Z.
Abbreviation timestamp := Z.

(** Modelled from the spec: the [profiles] table is created by a migration
    that is not among the sources.  Section 3 of the specification gives
    one Profile per user, [user_id] being its unique identity key, and
    [points] as an integer accumulator; the generated client types give
    [points], [current_streak] and [last_login_date] as nullable.
    [current_streak INTEGER] and [last_login_date DATE] are the columns
    added by the migration of the daily-login procedure.  The width of
    [points] is declared nowhere in the sources: sums on it are exact.
    The columns the subsystem never touches are left out. *)
Record profile := Profile {
  points : option Z;
  current_streak : option Z;
  last_login_date : option date
}.

(** [achievement_progress]: [current_count INTEGER NOT NULL DEFAULT 0],
    [last_updated ... NOT NULL DEFAULT now()],
    [bonus_claimed BOOLEAN NOT NULL DEFAULT false]; the key
    [UNIQUE(user_id, achievement_type)] is the key of the map in [db]. *)
Record progress := Progress {
  current_count : Z;
  last_updated : timestamp;
  bonus_claimed : bool
}.

(** [daily_logins] has [UNIQUE(user_id, login_date)] and no other column
    that is read: the table is the set of its pairs. *)
Record db := Db {
  profiles : gmap uuid profile;
  daily_logins : gset (uuid * date);
  achievement_progress : gmap (uuid * string) progress
}.

Inductive sql_error :=
| unique_violation
| numeric_value_out_of_range.

Inductive res (A : Type) :=
| Ok (a : A)
| Err (e : sql_error).
Arguments Ok {A} a.
Arguments Err {A} e.

Definition bind {A B} (r : res A) (k : A -> res B) : res B :=
  match r with
  | Ok a => k a
  | Err e => Err e
  end.

Notation "x <- r ;; k" := (bind r (fun x => k))
  (at level 100, r at next level, right associativity).

Definition INT_MIN : Z := -2147483648.
Definition INT_MAX : Z := 2147483647.

Definition int4_fits (x : Z) : bool := (INT_MIN <=? x) && (x <=? INT_MAX).

(** A value stored in, or cast to, [INTEGER]. *)
Definition int4 (x : Z) : res Z :=
  if int4_fits x then Ok x else Err numeric_value_out_of_range.

(** [a + b] on two [INTEGER]s. *)
Definition int4pl (a b : Z) : res Z := int4 (a + b).

(** [a = b] under SQL's three-valued logic: unknown when [a] is [NULL]. *)
Definition sql_eq (a : option Z) (b : Z) : option bool :=
  (fun x => x =? b) <$> a.

(** [IF c THEN ... ELSE ...]: an unknown condition takes the [ELSE] branch. *)
Definition sql_true (c : option bool) : bool := default false c.

(** [COALESCE(a, d)]. *)
Definition COALESCE (a : option Z) (d : Z) : Z := default d a.

(** [SELECT COUNT( * ) FROM daily_logins WHERE user_id = u AND login_date = t]. *)
Definition count_daily_logins (d : db) (u : uuid) (t : date) : Z :=
  if decide ((u, t) ∈ daily_logins d) then 1 else 0.

(** [INSERT INTO daily_logins (user_id, login_date) VALUES (u, t)]. *)
Definition insert_daily_login (d : db) (u : uuid) (t : date) : res db :=
  if decide ((u, t) ∈ daily_logins d) then Err unique_violation
  else Ok (Db (profiles d) ({[ (u, t) ]} ∪ daily_logins d) (achievement_progress d)).

(** The row returned by [handle_daily_login]. *)
Record login_row := LoginRow {
  points_earned : Z;
  streak_count : Z;
  is_new_login : bool
}.

(** [UPDATE profiles SET current_streak = new_streak,
      last_login_date = today_date,
      points = COALESCE(points, 0) + points_to_add
    WHERE profiles.user_id = u]: no row matched is no error. *)
Definition update_profile_login (d : db) (u : uuid)
    (new_streak : Z) (today_date : date) (points_to_add : Z) : res db :=
  match profiles d !! u with
  | None => Ok d
  | Some p =>
      Ok (Db (<[u := Profile (Some (COALESCE (points p) 0 + points_to_add))
                             (Some new_streak) (Some today_date)]> (profiles d))
             (daily_logins d) (achievement_progress d))
  end.

(** The body of [handle_daily_login], statement by statement.  [others]
    is what other sessions have committed between this call's reads and
    its [INSERT]: every statement sees the rows committed before it
    starts. *)
Definition handle_daily_login_body (others : db -> db) (d : db)
    (user_id_param : uuid) (today_date : date) : res (login_row * db) :=
  let yesterday_date := today_date - 1 in
  let points_to_add := 10 in
  let existing_login_count := count_daily_logins d user_id_param today_date in
  if 0 <? existing_login_count then
    let new_streak := profiles d !! user_id_param ≫= current_streak in
    Ok (LoginRow 0 (COALESCE new_streak 0) false, d)
  else
    let current_profile := profiles d !! user_id_param in
    new_streak <-
      (if sql_true (sql_eq (current_profile ≫= last_login_date) yesterday_date)
       then int4pl (COALESCE (current_profile ≫= current_streak) 0) 1
       else Ok 1) ;;
    points_to_add <-
      (if new_streak =? 30
       then let streak_bonus := 40 in int4pl points_to_add streak_bonus
       else Ok points_to_add) ;;
    d1 <- insert_daily_login (others d) user_id_param today_date ;;
    d2 <- update_profile_login d1 user_id_param new_streak today_date points_to_add ;;
    Ok (LoginRow points_to_add new_streak true, d2).

(** A call with its transaction: the row and the new store, or the error
    and the store without any write of this call. *)
Definition handle_daily_login_racing (others : db -> db) (d : db)
    (user_id_param : uuid) (today_date : date) : res login_row * db :=
  match handle_daily_login_body others d user_id_param today_date with
  | Ok (r, d') => (Ok r, d')
  | Err e => (Err e, others d)
  end.

(** The call when no other session commits in between. *)
Definition handle_daily_login (d : db) (user_id_param : uuid)
    (today_date : date) : res login_row * db :=
  handle_daily_login_racing (fun d => d) d user_id_param today_date.

(** [upsert({user_id, achievement_type, current_count, last_updated},
    {onConflict: 'user_id,achievement_type'})]: the columns sent are
    written, [bonus_claimed] keeps its value on a row that exists and
    takes its default on a new one. *)
Definition upsert_achievement_progress (d : db) (u : uuid) (t : string)
    (count : Z) (now : timestamp) : res db :=
  c <- int4 count ;;
  let claimed := default false (bonus_claimed <$> achievement_progress d !! (u, t)) in
  Ok (Db (profiles d) (daily_logins d)
         (<[(u, t) := Progress c now claimed]> (achievement_progress d))).

(** [from('profiles').update({points: p}).eq('user_id', u)]. *)
Definition update_profile_points (d : db) (u : uuid) (p : Z) : res db :=
  match profiles d !! u with
  | None => Ok d
  | Some r =>
      Ok (Db (<[u := Profile (Some p) (current_streak r) (last_login_date r)]> (profiles d))
             (daily_logins d) (achievement_progress d))
  end.

(** [from('achievement_progress').update({bonus_claimed: true})
      .eq('user_id', u).eq('achievement_type', t)]. *)
Definition update_bonus_claimed (d : db) (u : uuid) (t : string) : res db :=
  Ok (Db (profiles d) (daily_logins d)
         (alter (fun r => Progress (current_count r) (last_updated r) true) (u, t)
                (achievement_progress d))).

End Store.

(** ** The hook [useAchievements] *)

Module Client.
Import Store.

Inductive activity := quiz | game.

#[global] Instance activity_eq_dec : EqDecision activity.
Proof. solve_decision. Defined.

(** The text of ['quiz' | 'game'], as stored in [achievement_type]. *)
Definition activity_text (a : activity) : string :=
  match a with
  | quiz => "quiz"
  | game => "game"
  end.

(** The requests the hook sends to the record store. *)
Inductive store_call :=
| rpc_handle_daily_login (user_id_param : uuid)
| select_progress_single (user_id : uuid) (achievement_type : string)
| upsert_progress (user_id : uuid) (achievement_type : string)
    (count : Z) (now : timestamp)
| select_points_single (user_id : uuid)
| update_points (user_id : uuid) (p : Z)
| update_claimed (user_id : uuid) (achievement_type : string)
| select_progress (user_id : uuid).

(** The values of [bonusMessage]: the empty text it starts with and the
    two milestone texts. *)
Inductive bonus_message := NoMessage | Quizzes30 | Games50.

(** What [toast] is called with: the daily reward with the points in its
    description and whether the streak-bonus sentence is appended, or
    the unlocked achievement. *)
Inductive toast_call :=
| DailyReward (points_earned : Z) (bonus_included : bool)
| AchievementUnlocked (bonusMessage : bonus_message) (bonusPoints : Z).

(** The store and what the hook has done and holds: the requests sent
    (latest first), the two [useState] cells, the toasts shown and the
    errors given to [console.error] (latest first).  The array in
    [achievementProgress] is kept as the map of its rows. *)
Record world := World {
  store : db;
  calls : list store_call;
  loginStreak : Z;
  achievementProgress : gmap (uuid * string) progress;
  toasts : list toast_call;
  console : list sql_error
}.

Definition request (c : store_call) (w : world) : world :=
  World (store w) (c :: calls w) (loginStreak w) (achievementProgress w)
        (toasts w) (console w).

Definition commit (d : db) (w : world) : world :=
  World d (calls w) (loginStreak w) (achievementProgress w) (toasts w) (console w).

Definition setLoginStreak (n : Z) (w : world) : world :=
  World (store w) (calls w) n (achievementProgress w) (toasts w) (console w).

Definition setAchievementProgress (rows : gmap (uuid * string) progress)
    (w : world) : world :=
  World (store w) (calls w) (loginStreak w) rows (toasts w) (console w).

Definition toast (t : toast_call) (w : world) : world :=
  World (store w) (calls w) (loginStreak w) (achievementProgress w)
        (t :: toasts w) (console w).

Definition console_error (e : sql_error) (w : world) : world :=
  World (store w) (calls w) (loginStreak w) (achievementProgress w)
        (toasts w) (e :: console w).

(** [userId?: string] under [if (!userId) return]: [undefined] and the
    empty string are falsy. *)
Definition truthy (userId : option string) : option uuid :=
  match userId with
  | Some u => if decide (u = "") then None else Some u
  | None => None
  end.

(** [x || 0] on a number that may be [null] or [undefined]. *)
Definition or_zero (x : option Z) : Z :=
  match x with
  | Some v => if v =? 0 then 0 else v
  | None => 0
  end.

(** [handleDailyLogin], with [today] the server's [CURRENT_DATE] and
    [others] as in [handle_daily_login_body].  The value is the
    function's result, [None] for [undefined]. *)
Definition handleDailyLogin_racing (others : db -> db)
    (userId : option string) (today : date) (w : world)
    : option login_row * world :=
  match truthy userId with
  | None => (None, w)
  | Some u =>
      let w := request (rpc_handle_daily_login u) w in
      match handle_daily_login_racing others (store w) u today with
      | (Err error, d) => (None, console_error error (commit d w))
      | (Ok result, d) =>
          let w := setLoginStreak (streak_count result) (commit d w) in
          let w :=
            if is_new_login result && (0 <? points_earned result)
            then toast (DailyReward (points_earned result)
                                    (10 <? points_earned result)) w
            else w in
          (Some result, w)
      end
  end.

Definition handleDailyLogin (userId : option string) (today : date)
    (w : world) : option login_row * world :=
  handleDailyLogin_racing (fun d => d) userId today w.

(** [fetchAchievementProgress]. *)
Definition fetchAchievementProgress (userId : option string) (w : world) : world :=
  match truthy userId with
  | None => w
  | Some u =>
      let w := request (select_progress u) w in
      let data := filter (fun kr => kr.1.1 = u) (achievement_progress (store w)) in
      setAchievementProgress data w
  end.

(** The block of [trackActivity] under [if (bonusPoints > 0)]: the world
    it leaves, and the error thrown if one is. *)
Definition award_bonus (u : uuid) (t : string) (bonusMessage : bonus_message)
    (bonusPoints : Z) (w : world) : world * option sql_error :=
  let w := request (select_points_single u) w in
  let profile := profiles (store w) !! u in
  let p := or_zero (profile ≫= points) + bonusPoints in
  let w := request (update_points u p) w in
  match update_profile_points (store w) u p with
  | Err pointsError => (w, Some pointsError)
  | Ok d =>
      let w := request (update_claimed u t) (commit d w) in
      match update_bonus_claimed (store w) u t with
      | Err claimError => (w, Some claimError)
      | Ok d => (toast (AchievementUnlocked bonusMessage bonusPoints) (commit d w), None)
      end
  end.

(** The [try] block of [trackActivity]. *)
Definition trackActivity_try (u : uuid) (activityType : activity)
    (now : timestamp) (w : world) : world * option sql_error :=
  let t := activity_text activityType in
  let w := request (select_progress_single u t) w in
  let currentProgress := achievement_progress (store w) !! (u, t) in
  let newCount := or_zero (current_count <$> currentProgress) + 1 in
  let w := request (upsert_progress u t newCount now) w in
  match upsert_achievement_progress (store w) u t newCount now with
  | Err upsertError => (w, Some upsertError)
  | Ok d =>
      let w := commit d w in
      let claimed := default false (bonus_claimed <$> currentProgress) in
      let '(bonusPoints, bonusMessage) :=
        if bool_decide (activityType = quiz) && (newCount =? 30) && negb claimed
        then (50, Quizzes30)
        else if bool_decide (activityType = game) && (newCount =? 50) && negb claimed
        then (50, Games50)
        else (0, NoMessage) in
      let '(w, thrown) :=
        if 0 <? bonusPoints then award_bonus u t bonusMessage bonusPoints w
        else (w, None) in
      match thrown with
      | Some error => (w, Some error)
      | None => (fetchAchievementProgress (Some u) w, None)
      end
  end.

(** [trackActivity]: the [catch] gives the error to [console.error]. *)
Definition trackActivity (userId : option string) (activityType : activity)
    (now : timestamp) (w : world) : world :=
  match truthy userId with
  | None => w
  | Some u =>
      match trackActivity_try u activityType now w with
      | (w', None) => w'
      | (w', Some error) => console_error error w'
      end
  end.

(** The operations of the core, in the order a session issues them. *)
Inductive core_op :=
| Login (userId : option string) (today : date)
| Track (userId : option string) (activityType : activity) (now : timestamp).

Definition step (w : world) (o : core_op) : world :=
  match o with
  | Login userId today => (handleDailyLogin userId today w).2
  | Track userId activityType now => trackActivity userId activityType now w
  end.

Definition run (ops : list core_op) (w : world) : world := foldl step w ops.

End Client.

Import Store Client.

(** ** What the claims speak of

    The quantities and the statements the properties below are about,
    each defined from the store as the code reads it. *)

Section Statements.

Implicit Types (d : db) (u : uuid) (today : date) (p : profile)
  (w : world) (act : activity) (now : timestamp).

(** The streak the procedure computes for a login that continues or
    restarts, before any range check. *)
Definition next_streak (p : option profile) (today : date) : Z :=
  if sql_true (sql_eq (p ≫= last_login_date) (today - 1))
  then COALESCE (p ≫= current_streak) 0 + 1
  else 1.

(** The reward for a streak. *)
Definition reward (streak : Z) : Z := if streak =? 30 then 50 else 10.

(** C2, as stated for every Profile: the call returns and sets the streak
    to [current_streak + 1] after a login of yesterday and to 1
    otherwise. *)
Definition streak_rule_at d u today p : Prop :=
  exists pts d',
    handle_daily_login d u today =
      (Ok (LoginRow pts
             (if bool_decide (last_login_date p = Some (today - 1))
              then COALESCE (current_streak p) 0 + 1 else 1) true), d')
    /\ profiles d' !! u ≫= current_streak =
         Some (if bool_decide (last_login_date p = Some (today - 1))
               then COALESCE (current_streak p) 0 + 1 else 1).

(** C5, as stated, at a user without a Profile row: the call raises and
    neither inserts a login record nor returns a reward. *)
Definition missing_profile_is_fatal_at d u today : Prop :=
  exists e, handle_daily_login d u today = (Err e, d).

(** C4, as stated, at a call that loses the race: [handleDailyLogin]
    returns the already-logged-in row. *)
Definition conflict_recovers_at (others : db -> db) w u today : Prop :=
  exists s w',
    handleDailyLogin_racing others (Some u) today w = (Some (LoginRow 0 s false), w').

(** The count the tracker reads for a pair: 0 when there is no row. *)
Definition count_of d (k : uuid * string) : Z :=
  or_zero (current_count <$> achievement_progress d !! k).

(** The flag the tracker reads for a pair: false when there is no row. *)
Definition claimed_of d (k : uuid * string) : bool :=
  default false (bonus_claimed <$> achievement_progress d !! k).

(** The points the ledger reads for a user: 0 for [NULL] or no row. *)
Definition points_of d u : Z := or_zero (profiles d !! u ≫= points).

(** Bonus eligibility in the words of the specification. *)
Definition eligible act (newCount : Z) (claimed : bool) : Prop :=
  (act = quiz /\ newCount = 30 /\ claimed = false)
  \/ (act = game /\ newCount = 50 /\ claimed = false).

#[global] Instance eligible_dec act n c : Decision (eligible act n c).
Proof. unfold eligible. apply _. Defined.

(** The store one call of [trackActivity] leaves. *)
Definition tracked d u act now : db :=
  let k := (u, activity_text act) in
  let n := count_of d k + 1 in
  if int4_fits n then
    if decide (eligible act n (claimed_of d k)) then
      Db (match profiles d !! u with
          | Some r => <[u := Profile (Some (points_of d u + 50))
                                     (current_streak r) (last_login_date r)]> (profiles d)
          | None => profiles d
          end)
         (daily_logins d)
         (<[k := Progress n now true]> (achievement_progress d))
    else
      Db (profiles d) (daily_logins d)
         (<[k := Progress n now (claimed_of d k)]> (achievement_progress d))
  else d.

(** [n] calls for one pair, at the times [nows]. *)
Definition track_many u act (nows : list timestamp) w : world :=
  foldl (fun w now => trackActivity (Some u) act now w) w nows.

(** C6, as stated for every stored count: after one call the row's count
    is the count read plus 1. *)
Definition count_incremented_at w u act now : Prop :=
  current_count <$>
    achievement_progress (store (trackActivity (Some u) act now w))
      !! (u, activity_text act)
  = Some (count_of (store w) (u, activity_text act) + 1).

(** The milestone of an activity type. *)
Definition threshold act : Z :=
  match act with
  | quiz => 30
  | game => 50
  end.

End Statements.

(** ** Concrete stores

    User [u] with 100 points, a streak of 5 and a last login on day 19;
    the same store after the first call of day 20; a user one day short
    of the streak milestone; worlds around the quiz milestone. *)

Definition streak5 : db :=
  Db {[ "u" := Profile (Some 100) (Some 5) (Some 19) ]} ∅ ∅.

Definition streak5_logged : db := (handle_daily_login streak5 "u" 20).2.

Definition streak29 : db :=
  Db {[ "u" := Profile (Some 290) (Some 29) (Some 19) ]} ∅ ∅.

Definition fresh (d : db) : world := World d [] 0 ∅ [] [].

Definition quiz29 : world :=
  fresh (Db {[ "u" := Profile (Some 100) (Some 5) (Some 19) ]} ∅
            {[ ("u", "quiz") := Progress 29 6 false ]}).

Definition quiz30_claimed : world := trackActivity (Some "u") quiz 7 quiz29.

(** The other session of a race: its call of day 20 for [u], committed. *)
Definition winner (d : db) : db := (handle_daily_login d "u" 20).2.

(** ** The rest of the hook and the components that use it

    [fetchCurrentStreak] and the mount effect of [useAchievements]; the
    effect of [AuthProvider]; [getProgressData] and the progress list of
    [AchievementsPanel]; [handleSubmitQuiz] and [loadAnsweredQuestions]
    of the quiz page. *)

Module Screens.

(** The error of [.single()] on a result that is not one row. *)
Inductive rest_error := no_row.

(** [fetchCurrentStreak].  The second component is what the [catch]
    gives to [console.error], if anything.  Its one request is a read of
    [profiles] that [store_call] has no constructor for. *)
Definition fetchCurrentStreak (userId : option string) (w : world)
    : world * option rest_error :=
  match truthy userId with
  | None => (w, None)
  | Some u =>
      match profiles (store w) !! u with
      | None => (w, Some no_row)
      | Some data => (setLoginStreak (or_zero (current_streak data)) w, None)
      end
  end.

(** The [useEffect] of the hook on [userId]: the two reads are started
    one after the other and write different cells. *)
Definition useAchievements_effect (userId : option string) (w : world)
    : world * option rest_error :=
  match truthy userId with
  | None => (w, None)
  | Some _ =>
      let '(w, logged) := fetchCurrentStreak userId w in
      (fetchAchievementProgress userId w, logged)
  end.

(** The [useEffect] of [AuthProvider] on [auth.user] and [auth.loading];
    [user] is [auth.user] given by its [id], which is also the hook's
    [userId]. *)
Definition AuthProvider_effect (user : option string) (loading : bool)
    (today : date) (w : world) : world :=
  if bool_decide (is_Some user) && negb loading
  then (handleDailyLogin user today w).2
  else w.

(** The effect run [n] times on one day. *)
Fixpoint AuthProvider_effects (n : nat) (user : option string)
    (today : date) (w : world) : world :=
  match n with
  | O => w
  | S n => AuthProvider_effects n user today (AuthProvider_effect user false today w)
  end.

End Screens.

(** [AchievementsPanel]. *)
Module Panel.

(** The rows the panel is given, with the fields it reads. *)
Record AchievementProgress := Row {
  achievement_type : string;
  current_count : Z;
  bonus_claimed : bool
}.

Definition getProgressData (achievementProgress : list AchievementProgress)
    (type : string) : AchievementProgress :=
  default (Row type 0 false)
          (find (fun p => bool_decide (achievement_type p = type)) achievementProgress).

Inductive color_class := text_orange_600 | text_green_600 | text_muted_foreground.

(** An entry of [achievements]; [completed] is absent on the streak. *)
Record achievement := Achievement {
  id : string;
  progress : Z;
  target : Z;
  color : color_class;
  completed : option bool
}.

Definition achievements (loginStreak : Z)
    (achievementProgress : list AchievementProgress) : list achievement :=
  let quizProgress := getProgressData achievementProgress "quiz" in
  let gameProgress := getProgressData achievementProgress "game" in
  [ Achievement "daily_streak" loginStreak 30
      (if 30 <=? loginStreak then text_orange_600 else text_muted_foreground)
      None;
    Achievement "quiz_master" (current_count quizProgress) 30
      (if bonus_claimed quizProgress then text_green_600 else text_muted_foreground)
      (Some (bonus_claimed quizProgress));
    Achievement "game_champion" (current_count gameProgress) 50
      (if bonus_claimed gameProgress then text_green_600 else text_muted_foreground)
      (Some (bonus_claimed gameProgress)) ].

(** What the right-hand side of an entry shows: the badge, or
    [Math.min(progress, target)] over [target]. *)
Inductive shown := Completed | Fraction (numerator denominator : Z).

Definition render (a : achievement) : shown :=
  if default false (completed a) then Completed
  else Fraction (Z.min (progress a) (target a)) (target a).

(** The array a hook state is handed over as: its rows, in some order. *)
Definition array_of (rows : gmap (uuid * string) Store.progress)
    (l : list AchievementProgress) : Prop :=
  l ≡ₚ (fun kr => Row kr.1.2 (Store.current_count kr.2) (Store.bonus_claimed kr.2))
         <$> map_to_list rows.

End Panel.

(** The quiz page, as far as [handleSubmitQuiz] reads and writes it. *)
Module QuizPage.

(** The interface [Quiz], with the number of its [questions]. *)
Record Quiz := QuizOf {
  id : string;
  questions_length : nat
}.

(** A row of [quiz_attempts], with the columns the page sends or reads.
    The table's declaration is not among the sources. *)
Record attempt := Attempt {
  user_id : uuid;
  quiz_id : string;
  score : Z;
  max_score : Z;
  time_taken : Z;
  answers : option (gmap nat string)
}.

(** The calls of [sonner]'s [toast]. *)
Inductive sonner_call :=
| success_quiz_completed (currentScore : Z)
| error_failed_to_submit.

(** What the page gives to [console.error]. *)
Inductive page_error :=
| error_submitting_quiz
| error_updating_profile_points (profileError : sql_error).

(** The state cells [handleSubmitQuiz] and [loadAnsweredQuestions] read
    or write, the [quiz_attempts] table, what was shown and logged, and
    the page's instance of the hook with the store. *)
Record page := Page {
  selectedQuiz : option Quiz;
  user : option string;
  quizStartTime : option timestamp;
  currentScore : Z;
  page_answers : gmap nat string;
  answeredQuestions : gset string;
  quiz_attempts : list attempt;
  sonner : list sonner_call;
  page_console : list page_error;
  hook : world
}.

(** The keys [`${attempt.quiz_id}-${questionIndex}`] of one attempt. *)
Definition answered_keys (a : attempt) : gset string :=
  match answers a with
  | Some object => set_map (fun questionIndex : nat =>
                              quiz_id a +:+ "-" +:+ pretty questionIndex)
                           (dom object)
  | None => ∅
  end.

Definition loadAnsweredQuestions (pg : page) : page :=
  match user pg with
  | None => pg
  | Some u =>
      let data := filter (fun a => user_id a = u) (quiz_attempts pg) in
      let answeredSet := ⋃ (answered_keys <$> data) in
      Page (selectedQuiz pg) (user pg) (quizStartTime pg) (currentScore pg)
           (page_answers pg) answeredSet (quiz_attempts pg) (sonner pg)
           (page_console pg) (hook pg)
  end.

(** The part of [handleSubmitQuiz] under [if (currentScore > 0)]. *)
Definition credit_score (u : uuid) (currentScore : Z) (w : world)
    : world * option sql_error :=
  let w := request (select_points_single u) w in
  let currentProfile := profiles (store w) !! u in
  let newPoints := or_zero (currentProfile ≫= points) + currentScore in
  let w := request (update_points u newPoints) w in
  match update_profile_points (store w) u newPoints with
  | Err profileError => (w, Some profileError)
  | Ok d => (commit d w, None)
  end.

(** [handleSubmitQuiz], at the times [endTime] and [now] of its two
    clock reads.  [rejected] is whether the record store refuses the
    insert into [quiz_attempts]. *)
Definition handleSubmitQuiz (rejected : bool) (endTime now : timestamp)
    (pg : page) : page :=
  match selectedQuiz pg, user pg, quizStartTime pg with
  | Some selected, Some u, Some startTime =>
      let timeTaken := (endTime - startTime) / 1000 in
      if rejected then
        Page (selectedQuiz pg) (user pg) (quizStartTime pg) (currentScore pg)
             (page_answers pg) (answeredQuestions pg) (quiz_attempts pg)
             (error_failed_to_submit :: sonner pg)
             (error_submitting_quiz :: page_console pg) (hook pg)
      else
        let row := Attempt u (id selected) (currentScore pg)
                           (Z.of_nat (questions_length selected) * 10) timeTaken
                           (Some (page_answers pg)) in
        let '(w, profileError) :=
          if 0 <? currentScore pg then credit_score u (currentScore pg) (hook pg)
          else (hook pg, None) in
        let logged :=
          match profileError with
          | Some e => error_updating_profile_points e :: page_console pg
          | None => page_console pg
          end in
        let w := trackActivity (Some u) quiz now w in
        loadAnsweredQuestions
          (Page None (user pg) (quizStartTime pg) (currentScore pg)
                (page_answers pg) (answeredQuestions pg)
                (quiz_attempts pg ++ [row])
                (success_quiz_completed (currentScore pg) :: sonner pg)
                logged w)
  | _, _, _ => pg
  end.

End QuizPage.

(** ** Quantities of the further properties *)

(** [n] logins of [u] on consecutive days, the first on [day]. *)
Fixpoint login_days (n : nat) (u : uuid) (day : date) (d : db) : db :=
  match n with
  | O => d
  | S n => login_days n u (day + 1) (handle_daily_login d u day).2
  end.

(** The requests of one call after the read and the upsert, latest
    first: at a milestone the read and the write of the points and the
    write of the flag, then the refresh. *)
Definition later_requests (u : uuid) (act : activity) (p : Z)
    (at_milestone : bool) : list store_call :=
  select_progress u
  :: (if at_milestone
      then [update_claimed u (activity_text act); update_points u p;
            select_points_single u]
      else []).

(** Every streak and every count in the store is an [INTEGER]. *)
Definition in_range (d : db) : Prop :=
  (forall u p s, profiles d !! u = Some p -> current_streak p = Some s ->
     INT_MIN <= s <= INT_MAX)
  /\ (forall k r, achievement_progress d !! k = Some r ->
        INT_MIN <= current_count r <= INT_MAX).

(** A store on which a call for [u] on [today] writes nothing and
    returns no new login. *)
Definition settled (d : db) (u : uuid) (today : date) : Prop :=
  (handle_daily_login d u today).2 = d
  /\ forall r, (handle_daily_login d u today).1 = Ok r -> is_new_login r = false.

(** What an entry of the panel shows for a count, a flag and a target. *)
Definition shown_for (count : Z) (claimed : bool) (target : Z) : Panel.shown :=
  if claimed then Panel.Completed
  else Panel.Fraction (Z.min count target) target.

(** C7, as stated for every call: the points of the user grow by 50
    exactly when the call is eligible. *)
Definition bonus_credited_iff_at (w : world) (u : uuid) (act : activity)
    (now : timestamp) : Prop :=
  points_of (store (trackActivity (Some u) act now w)) u = points_of (store w) u + 50
  <-> eligible act (count_of (store w) (u, activity_text act) + 1)
               (claimed_of (store w) (u, activity_text act)).

(** Further concrete inputs: a streak at the end of the [INTEGER] range;
    a user back after a gap; a user with counter rows but no Profile; a
    world with both counters; a page about to submit its thirtieth quiz. *)

Definition streak_max : db :=
  Db {[ "u" := Profile (Some 0) (Some 2147483647) (Some 99) ]} ∅ ∅.

Definition back_after_gap : db :=
  Db {[ "u" := Profile (Some 70) (Some 7) (Some 17) ]} ∅ ∅.

Definition ghost29 : world :=
  fresh (Db ∅ ∅ {[ ("ghost", "quiz") := Progress 29 6 false ]}).

Definition both_counters : world :=
  World (Db {[ "u" := Profile (Some 100) (Some 45) (Some 19) ]} ∅
            (<[ ("u", "game") := Progress 12 3 false ]>
               {[ ("u", "quiz") := Progress 30 7 true ]}))
        [] 45 ∅ [] [].

Definition submitting : QuizPage.page :=
  QuizPage.Page (Some (QuizPage.QuizOf "q1" 3)) (Some "u") (Some 1000) 20
                {[ 0%nat := "a"; 2%nat := "c" ]} ∅ [] [] [] quiz29.

(** ** The daily-login procedure *)

Section DailyLogin.

Implicit Types (d : db) (u : uuid) (today : date) (p : profile).

Lemma count_daily_logins_present d u today :
  (u, today) ∈ daily_logins d -> (0 <? count_daily_logins d u today) = true.
Proof. intros Hin. unfold count_daily_logins. by rewrite decide_True. Qed.

Lemma count_daily_logins_absent d u today :
  (u, today) ∉ daily_logins d -> (0 <? count_daily_logins d u today) = false.
Proof. intros Hin. unfold count_daily_logins. by rewrite decide_False. Qed.

Lemma int4_Ok x : INT_MIN <= x <= INT_MAX -> int4 x = Ok x.
Proof.
  intros [Hlo Hhi]. unfold int4, int4_fits.
  apply Z.leb_le in Hlo, Hhi. by rewrite Hlo, Hhi.
Qed.

Lemma sql_true_eq_date (a : option date) (b : date) :
  sql_true (sql_eq a b) = bool_decide (a = Some b).
Proof.
  destruct a as [x|]; simpl; [|done].
  destruct (Z.eqb_spec x b) as [->|Hne].
  - by rewrite bool_decide_eq_true_2.
  - rewrite bool_decide_eq_false_2; [done|]. by intros [= ->].
Qed.

(** What a call does when there is no login of today yet and no other
    session interferes: either the new streak fits [INTEGER] and the call
    inserts, updates and returns, or it raises and writes nothing. *)
Lemma handle_daily_login_new d u today :
  (u, today) ∉ daily_logins d ->
  let ns := next_streak (profiles d !! u) today in
  handle_daily_login d u today =
    if int4_fits ns then
      (Ok (LoginRow (reward ns) ns true),
       Db (match profiles d !! u with
           | Some p => <[u := Profile (Some (COALESCE (points p) 0 + reward ns))
                                      (Some ns) (Some today)]> (profiles d)
           | None => profiles d
           end)
          ({[ (u, today) ]} ∪ daily_logins d) (achievement_progress d))
    else (Err numeric_value_out_of_range, d).
Proof.
  intros Hnew ns.
  unfold handle_daily_login, handle_daily_login_racing, handle_daily_login_body.
  rewrite (count_daily_logins_absent _ _ _ Hnew).
  assert (Hstreak :
    (if sql_true (sql_eq (profiles d !! u ≫= last_login_date) (today - 1))
     then int4pl (COALESCE (profiles d !! u ≫= current_streak) 0) 1
     else Ok 1) = int4 ns).
  { subst ns. unfold next_streak, int4pl.
    destruct (sql_true _); [done|]. by rewrite int4_Ok by (unfold INT_MIN, INT_MAX; lia). }
  rewrite Hstreak. unfold int4. destruct (int4_fits ns); simpl; [|done].
  assert (Hreward :
    (if ns =? 30 then int4pl 10 40 else Ok 10) = Ok (reward ns)).
  { unfold reward. destruct (ns =? 30); [|done]. done. }
  rewrite Hreward. simpl.
  unfold insert_daily_login. rewrite decide_False by done. simpl.
  unfold update_profile_login. simpl.
  by destruct (profiles d !! u).
Qed.

(** What a call does when a login of today is recorded. *)
Lemma handle_daily_login_present d u today :
  (u, today) ∈ daily_logins d ->
  handle_daily_login d u today =
    (Ok (LoginRow 0 (COALESCE (profiles d !! u ≫= current_streak) 0) false), d).
Proof.
  intros Hin.
  unfold handle_daily_login, handle_daily_login_racing, handle_daily_login_body.
  by rewrite (count_daily_logins_present _ _ _ Hin).
Qed.

(** A call that returns leaves a login of today behind. *)
Lemma handle_daily_login_records d u today r d' :
  handle_daily_login d u today = (Ok r, d') -> (u, today) ∈ daily_logins d'.
Proof.
  destruct (decide ((u, today) ∈ daily_logins d)) as [Hin|Hnew].
  - rewrite (handle_daily_login_present _ _ _ Hin). by intros [= _ <-].
  - rewrite (handle_daily_login_new _ _ _ Hnew). simpl.
    destruct (int4_fits _); [|done]. intros [= _ <-]. simpl. set_solver.
Qed.

(** C1: when a login of today is already recorded for the user,
    [handle_daily_login] returns 0 points, the Profile's current streak
    ([NULL] and a missing row read as 0) and [is_new_login = false], and
    the store it leaves is the store it found: points, streak, last login
    date and the set of login records are untouched. *)
Theorem same_day_login_is_noop d u today :
  (u, today) ∈ daily_logins d ->
  handle_daily_login d u today =
    (Ok (LoginRow 0 (COALESCE (profiles d !! u ≫= current_streak) 0) false), d)
  /\ (forall p s, profiles d !! u = Some p -> current_streak p = Some s ->
        handle_daily_login d u today = (Ok (LoginRow 0 s false), d)).
Proof.
  intros Hin. pose proof (handle_daily_login_present _ _ _ Hin) as Hcall.
  split; [exact Hcall|].
  intros p s Hp Hs. rewrite Hcall, Hp. simpl. by rewrite Hs.
Qed.

(** Two calls on one date: the second finds the record of the first. *)
Lemma second_login_same_day d u today r d' :
  handle_daily_login d u today = (Ok r, d') ->
  exists s, handle_daily_login d' u today = (Ok (LoginRow 0 s false), d').
Proof.
  intros Hfirst. apply handle_daily_login_records in Hfirst.
  eexists. by apply handle_daily_login_present.
Qed.

(** C2, amended: for a user with a Profile and no login of today, whose
    [current_streak] is an [INTEGER] and, after a login of yesterday, is
    below 2147483647, the call returns and sets the streak to
    [current_streak + 1] ([NULL] counting as 0) when [last_login_date] is
    [today - 1], and to 1 in every other case. *)
Theorem new_login_streak d u today p :
  (u, today) ∉ daily_logins d ->
  profiles d !! u = Some p ->
  (last_login_date p = Some (today - 1) ->
     INT_MIN <= COALESCE (current_streak p) 0 + 1 <= INT_MAX) ->
  streak_rule_at d u today p.
Proof.
  intros Hnew Hp Hfit. unfold streak_rule_at.
  rewrite (handle_daily_login_new _ _ _ Hnew), Hp. simpl.
  unfold next_streak. simpl. rewrite sql_true_eq_date.
  set (ns := if bool_decide _ then _ else _) in *.
  assert (Hns : int4_fits ns = true).
  { subst ns. unfold int4_fits. case_bool_decide as Hy.
    - specialize (Hfit Hy). apply andb_true_iff. split; apply Z.leb_le; lia.
    - done. }
  rewrite Hns. eexists _, _. split; [done|].
  simpl. by rewrite lookup_insert_eq.
Qed.

(** C2 fails as stated: a streak of 2147483647 continued from yesterday. *)
Lemma new_login_streak_overflow :
  let p := Profile (Some 0) (Some 2147483647) (Some 99) in
  let d := Db {[ "u" := p ]} ∅ ∅ in
  (("u", 100) ∉ daily_logins d)
  /\ profiles d !! "u" = Some p
  /\ last_login_date p = Some (100 - 1)
  /\ handle_daily_login d "u" 100 = (Err numeric_value_out_of_range, d)
  /\ ~ streak_rule_at d "u" 100 p.
Proof.
  assert (Hcall :
    handle_daily_login (Db {[ "u" := Profile (Some 0) (Some 2147483647) (Some 99) ]} ∅ ∅)
      "u" 100
    = (Err numeric_value_out_of_range,
       Db {[ "u" := Profile (Some 0) (Some 2147483647) (Some 99) ]} ∅ ∅)).
  { by vm_compute. }
  simpl. repeat split; try done.
  intros (pts & d' & Hok & _). rewrite Hcall in Hok. discriminate.
Qed.

(** C3: a call is a new login exactly when no login of today is
    recorded and the newly computed streak is an [INTEGER]; the row it
    then returns carries that streak and as points earned exactly 50
    (the base 10 plus the bonus 40) when the streak is 30 and exactly 10
    for every other streak, 31 included; and the Profile's points grow
    by exactly the points earned. *)
Theorem new_login_reward d u today :
  let ns := next_streak (profiles d !! u) today in
  let pts := if ns =? 30 then 10 + 40 else 10 in
  (forall r,
     (handle_daily_login d u today).1 = Ok r /\ is_new_login r = true
     <-> ((u, today) ∉ daily_logins d)
         /\ INT_MIN <= ns <= INT_MAX
         /\ r = LoginRow pts ns true)
  /\ (((u, today) ∉ daily_logins d) ->
      INT_MIN <= ns <= INT_MAX ->
      forall p, profiles d !! u = Some p ->
        profiles (handle_daily_login d u today).2 !! u
        = Some (Profile (Some (COALESCE (points p) 0 + pts)) (Some ns) (Some today))).
Proof.
  intros ns pts.
  assert (Hfits : int4_fits ns = true <-> INT_MIN <= ns <= INT_MAX).
  { unfold int4_fits. by rewrite andb_true_iff, !Z.leb_le. }
  split.
  - intros r. split.
    + intros [Hcall Hnew].
      destruct (decide ((u, today) ∈ daily_logins d)) as [Hin|Hout].
      { rewrite (handle_daily_login_present _ _ _ Hin) in Hcall. simpl in Hcall.
        injection Hcall as <-. discriminate. }
      rewrite (handle_daily_login_new _ _ _ Hout) in Hcall. fold ns in Hcall.
      destruct (int4_fits ns) eqn:Hfit; simpl in Hcall; [|discriminate].
      injection Hcall as <-. split; [done|]. split; [by apply Hfits|done].
    + intros (Hout & Hrange & ->).
      rewrite (handle_daily_login_new _ _ _ Hout). fold ns.
      apply Hfits in Hrange. by rewrite Hrange.
  - intros Hout Hrange p Hp.
    rewrite (handle_daily_login_new _ _ _ Hout). fold ns.
    apply Hfits in Hrange. rewrite Hrange, Hp. simpl.
    by rewrite lookup_insert_eq.
Qed.

(** The reward at the streaks around the milestone. *)
Example reward_29_30_31 :
  let day29 := Db {[ "u" := Profile (Some 280) (Some 28) (Some 9) ]} ∅ ∅ in
  let r29 := handle_daily_login day29 "u" 10 in
  let r30 := handle_daily_login r29.2 "u" 11 in
  let r31 := handle_daily_login r30.2 "u" 12 in
  r29.1 = Ok (LoginRow 10 29 true)
  /\ r30.1 = Ok (LoginRow 50 30 true)
  /\ r31.1 = Ok (LoginRow 10 31 true)
  /\ profiles r31.2 !! "u" = Some (Profile (Some 350) (Some 31) (Some 12)).
Proof. by vm_compute. Qed.

(** C5, amended: for a user whose Profile row does not exist, the call
    does not fail.  The missing fields read as [NULL]: with no login of
    today it inserts the login record, updates no Profile and returns
    10 points, streak 1, [is_new_login = true]; with one, it returns
    0 points, streak 0, [is_new_login = false]. *)
Theorem missing_profile_is_defaulted d u today :
  profiles d !! u = None ->
  handle_daily_login d u today =
    if decide ((u, today) ∈ daily_logins d)
    then (Ok (LoginRow 0 0 false), d)
    else (Ok (LoginRow 10 1 true),
          Db (profiles d) ({[ (u, today) ]} ∪ daily_logins d) (achievement_progress d)).
Proof.
  intros Hp. destruct (decide _) as [Hin|Hout].
  - by rewrite (handle_daily_login_present _ _ _ Hin), Hp.
  - by rewrite (handle_daily_login_new _ _ _ Hout), Hp.
Qed.

(** C5 fails as stated: a first login of a user without a Profile row. *)
Lemma missing_profile_not_fatal :
  let d := Db ∅ ∅ ∅ in
  profiles d !! "ghost" = None
  /\ handle_daily_login d "ghost" 20 =
       (Ok (LoginRow 10 1 true), Db ∅ {[ ("ghost", 20) ]} ∅)
  /\ ~ missing_profile_is_fatal_at d "ghost" 20.
Proof.
  assert (Hcall : handle_daily_login (Db ∅ ∅ ∅) "ghost" 20 =
                  (Ok (LoginRow 10 1 true), Db ∅ {[ ("ghost", 20) ]} ∅)).
  { by vm_compute. }
  simpl. repeat split; try done.
  intros [e He]. rewrite Hcall in He. discriminate.
Qed.

End DailyLogin.

(** ** Two sessions logging in at once *)

Section Conflict.

Implicit Types (d : db) (u : uuid) (today : date) (w : world).

(** The loser of a race: its reads found no login of today, the winner's
    is there when it inserts. *)
Lemma handle_daily_login_racing_conflict others d u today :
  (u, today) ∉ daily_logins d ->
  (u, today) ∈ daily_logins (others d) ->
  handle_daily_login_racing others d u today =
    (Err (if int4_fits (next_streak (profiles d !! u) today)
          then unique_violation else numeric_value_out_of_range),
     others d).
Proof.
  intros Hnew Hthere.
  unfold handle_daily_login_racing, handle_daily_login_body.
  rewrite (count_daily_logins_absent _ _ _ Hnew).
  change (if sql_true (sql_eq (profiles d !! u ≫= last_login_date) (today - 1))
          then int4pl (COALESCE (profiles d !! u ≫= current_streak) 0) 1
          else Ok 1)
    with (if sql_true (sql_eq (profiles d !! u ≫= last_login_date) (today - 1))
          then int4 (COALESCE (profiles d !! u ≫= current_streak) 0 + 1)
          else Ok 1).
  unfold next_streak, int4.
  destruct (sql_true _); simpl.
  - destruct (int4_fits _); simpl; [|done].
    destruct (_ =? 30); simpl; unfold insert_daily_login; by rewrite decide_True.
  - unfold insert_daily_login. by rewrite decide_True.
Qed.

(** Alone, a call never meets the constraint: it inserts only after
    finding no login of today. *)
Lemma handle_daily_login_no_conflict d u today :
  (handle_daily_login d u today).1 <> Err unique_violation.
Proof.
  destruct (decide ((u, today) ∈ daily_logins d)) as [Hin|Hout].
  - by rewrite (handle_daily_login_present _ _ _ Hin).
  - rewrite (handle_daily_login_new _ _ _ Hout). simpl.
    by destruct (int4_fits _).
Qed.

Lemma truthy_Some u : u <> "" -> truthy (Some u) = Some u.
Proof. intros Hu. unfold truthy. by rewrite decide_False. Qed.

(** C4, amended: when the [INSERT] of a call hits the unique constraint,
    the procedure has no handler and raises; none of the call's writes
    reaches the store, so no points are credited twice; [handleDailyLogin]
    gives the error to [console.error] and returns [undefined], with no
    streak set and no toast.  The error is [unique_violation] unless the
    streak addition had already left the [INTEGER] range. *)
Theorem login_conflict_raises others w u today :
  u <> "" ->
  (u, today) ∉ daily_logins (store w) ->
  (u, today) ∈ daily_logins (others (store w)) ->
  exists e,
    handle_daily_login_racing others (store w) u today = (Err e, others (store w))
    /\ handleDailyLogin_racing others (Some u) today w =
         (None, World (others (store w)) (rpc_handle_daily_login u :: calls w)
                      (loginStreak w) (achievementProgress w) (toasts w)
                      (e :: console w))
    /\ (int4_fits (next_streak (profiles (store w) !! u) today) = true ->
        e = unique_violation).
Proof.
  intros Hu Hnew Hthere.
  pose proof (handle_daily_login_racing_conflict others _ _ _ Hnew Hthere) as Hcall.
  eexists. split; [exact Hcall|]. split.
  - unfold handleDailyLogin_racing. rewrite (truthy_Some _ Hu). simpl.
    by rewrite Hcall.
  - by intros ->.
Qed.

(** C4 fails as stated: two sessions of one user on day 20; the other
    session's call commits between this call's reads and its insert. *)
Lemma login_conflict_not_recovered :
  let d := Db {[ "u" := Profile (Some 100) (Some 5) (Some 19) ]} ∅ ∅ in
  let winner := fun d => (handle_daily_login d "u" 20).2 in
  let w := World d [] 0 ∅ [] [] in
  let loser := handleDailyLogin_racing winner (Some "u") 20 w in
  (("u", 20) ∉ daily_logins d)
  /\ ("u", 20) ∈ daily_logins (winner d)
  /\ handle_daily_login_racing winner d "u" 20 = (Err unique_violation, winner d)
  /\ loser.1 = None
  /\ console loser.2 = [unique_violation]
  /\ profiles (store loser.2) !! "u" = Some (Profile (Some 110) (Some 6) (Some 20))
  /\ ~ conflict_recovers_at winner w "u" 20.
Proof.
  simpl. split; [set_solver|]. split; [by vm_compute|].
  split; [by vm_compute|]. split; [by vm_compute|].
  split; [by vm_compute|]. split; [by vm_compute|].
  intros (s & w' & Hcall).
  apply (f_equal fst) in Hcall. vm_compute in Hcall. discriminate.
Qed.

End Conflict.

(** ** The achievement tracker *)

Section Achievements.

Implicit Types (d : db) (u : uuid) (w : world) (act : activity) (now : timestamp).

#[local] Arguments or_zero : simpl never.

Lemma or_zero_Some v : or_zero (Some v) = v.
Proof. unfold or_zero. destruct (Z.eqb_spec v 0); congruence. Qed.

Lemma eligible_quiz n c :
  eligible quiz n c <-> (n =? 30) && negb c = true.
Proof.
  unfold eligible. rewrite andb_true_iff, Z.eqb_eq, negb_true_iff.
  split; [intros [(_ & ? & ?)|(? & _)]; done|intros [? ?]; left; done].
Qed.

Lemma eligible_game n c :
  eligible game n c <-> (n =? 50) && negb c = true.
Proof.
  unfold eligible. rewrite andb_true_iff, Z.eqb_eq, negb_true_iff.
  split; [intros [(? & _)|(_ & ? & ?)]; done|intros [? ?]; right; done].
Qed.

(** Unfolds one call on a user identifier that is not falsy and splits on
    the activity type, the range check of the upsert and the two
    milestone tests. *)
Ltac track_cases Hu :=
  unfold trackActivity, trackActivity_try;
  rewrite (truthy_Some _ Hu); simpl;
  unfold upsert_achievement_progress, int4;
  match goal with
  | |- context [int4_fits ?n] =>
      let Hfit := fresh "Hfit" in destruct (int4_fits n) eqn:Hfit; simpl
  end;
  [ match goal with
    | act : activity |- _ =>
        destruct act; simpl;
        match goal with
        | |- context [(?n =? ?m) && negb ?c] =>
            let Hel := fresh "Hel" in
            destruct ((n =? m) && negb c) eqn:Hel; simpl
        end
    end;
    unfold award_bonus, fetchAchievementProgress;
    rewrite ?(truthy_Some _ Hu); simpl
  | ].

Lemma trackActivity_store w u act now :
  u <> "" ->
  store (trackActivity (Some u) act now w) = tracked (store w) u act now.
Proof.
  intros Hu. unfold tracked, count_of, claimed_of, points_of.
  track_cases Hu.
  - rewrite decide_True by (by apply eligible_quiz).
    unfold update_profile_points. simpl.
    destruct (profiles (store w) !! u); simpl; by rewrite alter_insert_eq.
  - rewrite decide_False; [done|]. rewrite eligible_quiz. by rewrite Hel.
  - rewrite decide_True by (by apply eligible_game).
    unfold update_profile_points. simpl.
    destruct (profiles (store w) !! u); simpl; by rewrite alter_insert_eq.
  - rewrite decide_False; [done|]. rewrite eligible_game. by rewrite Hel.
  - done.
Qed.

(** Every call that gets past the guard sends the read of the pair's row
    and then the upsert of the incremented count. *)
Lemma trackActivity_calls w u act now :
  u <> "" ->
  exists later,
    calls (trackActivity (Some u) act now w) =
      (later ++ upsert_progress u (activity_text act)
                  (count_of (store w) (u, activity_text act) + 1) now
             :: select_progress_single u (activity_text act)
             :: calls w)%list.
Proof.
  intros Hu. unfold count_of.
  track_cases Hu.
  - unfold update_profile_points. simpl.
    destruct (profiles (store w) !! u); simpl; by eexists [_; _; _; _].
  - by eexists [_].
  - unfold update_profile_points. simpl.
    destruct (profiles (store w) !! u); simpl; by eexists [_; _; _; _].
  - by eexists [_].
  - by exists [].
Qed.

Lemma tracked_row d u act now :
  int4_fits (count_of d (u, activity_text act) + 1) = true ->
  exists c,
    achievement_progress (tracked d u act now) !! (u, activity_text act) =
      Some (Progress (count_of d (u, activity_text act) + 1) now c).
Proof.
  intros Hfit. unfold tracked. rewrite Hfit.
  destruct (decide _); simpl; rewrite lookup_insert_eq; by eexists.
Qed.

Lemma tracked_overflow d u act now :
  int4_fits (count_of d (u, activity_text act) + 1) = false ->
  tracked d u act now = d.
Proof. intros Hfit. unfold tracked. by rewrite Hfit. Qed.

Lemma eligible_fits act n c : eligible act n c -> int4_fits n = true.
Proof. by intros [(_ & -> & _)|(_ & -> & _)]. Qed.

Lemma tracked_eligible d u act now :
  eligible act (count_of d (u, activity_text act) + 1)
               (claimed_of d (u, activity_text act)) ->
  profiles (tracked d u act now) =
    match profiles d !! u with
    | Some r => <[u := Profile (Some (points_of d u + 50))
                               (current_streak r) (last_login_date r)]> (profiles d)
    | None => profiles d
    end.
Proof.
  intros Hel. unfold tracked. rewrite (eligible_fits _ _ _ Hel).
  by rewrite decide_True.
Qed.

Lemma tracked_not_eligible d u act now :
  ~ eligible act (count_of d (u, activity_text act) + 1)
                 (claimed_of d (u, activity_text act)) ->
  profiles (tracked d u act now) = profiles d.
Proof.
  intros Hel. unfold tracked. destruct (int4_fits _); [|done].
  by rewrite decide_False.
Qed.

Lemma tracked_logins d u act now :
  daily_logins (tracked d u act now) = daily_logins d.
Proof.
  unfold tracked. destruct (int4_fits _); [|done]. by destruct (decide _).
Qed.

(** A flag that is set stays set through one call, for every pair. *)
Lemma tracked_claimed d u act now k :
  claimed_of d k = true -> claimed_of (tracked d u act now) k = true.
Proof.
  intros Hk. unfold tracked. destruct (int4_fits _); [|done].
  destruct (decide ((u, activity_text act) = k)) as [<-|Hne].
  - destruct (decide _); unfold claimed_of; simpl; by rewrite lookup_insert_eq.
  - destruct (decide _); unfold claimed_of; simpl;
      by rewrite lookup_insert_ne.
Qed.

Lemma or_zero_COALESCE x : or_zero x = COALESCE x 0.
Proof. destruct x as [v|]; [apply or_zero_Some|done]. Qed.

(** The points of any user after one call: what they were, plus 50 when
    the call is the user's own, eligible, and a Profile row is there. *)
Lemma tracked_points d u act now u' :
  points_of (tracked d u act now) u' =
    points_of d u' +
    (if bool_decide (u' = u /\ is_Some (profiles d !! u)
                     /\ eligible act (count_of d (u, activity_text act) + 1)
                                     (claimed_of d (u, activity_text act)))
     then 50 else 0).
Proof.
  case_bool_decide as Hc.
  - destruct Hc as (-> & [r Hr] & Hel).
    unfold points_of at 1. rewrite (tracked_eligible _ _ _ _ Hel), Hr.
    rewrite lookup_insert_eq. simpl. by rewrite or_zero_Some.
  - destruct (decide (eligible act (count_of d (u, activity_text act) + 1)
                                   (claimed_of d (u, activity_text act)))) as [Hel|Hel].
    + unfold points_of at 1. rewrite (tracked_eligible _ _ _ _ Hel).
      destruct (profiles d !! u) as [r|] eqn:Hr; [|unfold points_of; lia].
      rewrite lookup_insert_ne; [unfold points_of; lia|].
      intros Heq. subst. apply Hc. eauto.
    + unfold points_of at 1. rewrite (tracked_not_eligible _ _ _ _ Hel).
      unfold points_of. lia.
Qed.

Lemma count_of_row d k c t b :
  achievement_progress d !! k = Some (Progress c t b) -> count_of d k = c.
Proof. intros Hk. unfold count_of. rewrite Hk. simpl. apply or_zero_Some. Qed.

Lemma track_many_count u act nows : forall w,
  u <> "" ->
  INT_MIN <= count_of (store w) (u, activity_text act) + 1 ->
  count_of (store w) (u, activity_text act) + Z.of_nat (length nows) <= INT_MAX ->
  count_of (store (track_many u act nows w)) (u, activity_text act) =
    count_of (store w) (u, activity_text act) + Z.of_nat (length nows).
Proof.
  induction nows as [|now nows IH]; intros w Hu Hlo Hhi; simpl in *; [lia|].
  assert (Hfit : int4_fits (count_of (store w) (u, activity_text act) + 1) = true).
  { unfold int4_fits. apply andb_true_iff. split; apply Z.leb_le; lia. }
  destruct (tracked_row (store w) u act now Hfit) as [c Hrow].
  rewrite <- (trackActivity_store _ _ _ _ Hu) in Hrow.
  apply count_of_row in Hrow.
  unfold track_many in *. rewrite IH; rewrite ?Hrow; try done; lia.
Qed.

Lemma track_many_row u act nows now w :
  u <> "" ->
  INT_MIN <= count_of (store w) (u, activity_text act) + 1 ->
  count_of (store w) (u, activity_text act) + Z.of_nat (S (length nows)) <= INT_MAX ->
  exists b,
    achievement_progress (store (track_many u act (nows ++ [now]) w))
      !! (u, activity_text act)
    = Some (Progress (count_of (store w) (u, activity_text act)
                      + Z.of_nat (S (length nows))) now b).
Proof.
  intros Hu Hlo Hhi.
  pose proof (track_many_count u act nows w Hu Hlo ltac:(lia)) as Hprev.
  unfold track_many in *. rewrite foldl_app. simpl.
  rewrite (trackActivity_store _ _ _ _ Hu).
  set (w0 := foldl _ w nows) in *.
  assert (Hfit : int4_fits (count_of (store w0) (u, activity_text act) + 1) = true).
  { unfold int4_fits. apply andb_true_iff. split; apply Z.leb_le; lia. }
  destruct (tracked_row (store w0) u act now Hfit) as [c ->].
  exists c. do 2 f_equal. lia.
Qed.

(** C6, amended: for a user and an activity type whose stored count is
    below 2147483647 (an absent row counting as 0), one call of
    [trackActivity] sends an upsert on the pair [(user_id,
    achievement_type)] carrying the stored count plus 1, and the row then
    holds that count; hence 30 calls for [quiz] starting from no row end
    with [current_count = 30]. *)
Theorem activity_count_incremented w u act now :
  u <> "" ->
  INT_MIN <= count_of (store w) (u, activity_text act) + 1 <= INT_MAX ->
  count_incremented_at w u act now
  /\ upsert_progress u (activity_text act)
       (count_of (store w) (u, activity_text act) + 1) now
     ∈ calls (trackActivity (Some u) act now w)
  /\ (forall nows,
        achievement_progress (store w) !! (u, "quiz") = None ->
        length nows = 30%nat ->
        current_count <$>
          achievement_progress (store (track_many u quiz nows w)) !! (u, "quiz")
        = Some 30).
Proof.
  intros Hu [Hlo Hhi]. split; [|split].
  - unfold count_incremented_at. rewrite (trackActivity_store _ _ _ _ Hu).
    assert (Hfit : int4_fits (count_of (store w) (u, activity_text act) + 1) = true).
    { unfold int4_fits. apply andb_true_iff. split; by apply Z.leb_le. }
    destruct (tracked_row (store w) u act now Hfit) as [c ->]. done.
  - destruct (trackActivity_calls w u act now Hu) as [later ->].
    set_solver.
  - intros nows Hnone Hlen.
    assert (Hzero : count_of (store w) (u, activity_text quiz) = 0).
    { unfold count_of. simpl. by rewrite Hnone. }
    destruct nows as [|now0 nows0 _] using rev_ind; [done|].
    rewrite length_app in Hlen. simpl in Hlen.
    destruct (track_many_row u quiz nows0 now0 w Hu) as [b Hrow].
    + rewrite Hzero. unfold INT_MIN. lia.
    + rewrite Hzero. unfold INT_MAX. lia.
    + simpl in Hrow. rewrite Hrow. simpl. simpl in Hzero. rewrite Hzero.
      f_equal. lia.
Qed.

(** C6 fails as stated: a stored count of 2147483647. *)
Lemma activity_count_overflow :
  let row := Progress 2147483647 0 true in
  let w := World (Db ∅ ∅ {[ ("u", "quiz") := row ]}) [] 0 ∅ [] [] in
  let w' := trackActivity (Some "u") quiz 1 w in
  achievement_progress (store w') !! ("u", "quiz") = Some row
  /\ console w' = [numeric_value_out_of_range]
  /\ ~ count_incremented_at w "u" quiz 1.
Proof.
  simpl. split; [by vm_compute|]. split; [by vm_compute|].
  unfold count_incremented_at. vm_compute. discriminate.
Qed.

(** C7, amended: for a user whose Profile row exists, one call of
    [trackActivity] credits
    50 points to the Profile's points exactly when the activity is [quiz],
    the new count is 30 and [bonus_claimed] is false, or the activity is
    [game], the new count is 50 and [bonus_claimed] is false; in every
    other case, and so whenever the new count is already past the
    milestone, no Profile is written. *)
Theorem milestone_bonus_iff w u act now p :
  u <> "" ->
  profiles (store w) !! u = Some p ->
  let k := (u, activity_text act) in
  let newCount := count_of (store w) k + 1 in
  let w' := trackActivity (Some u) act now w in
  (points_of (store w') u = points_of (store w) u + 50
     <-> eligible act newCount (claimed_of (store w) k))
  /\ (eligible act newCount (claimed_of (store w) k) ->
      profiles (store w') =
        <[u := Profile (Some (points_of (store w) u + 50))
                       (current_streak p) (last_login_date p)]> (profiles (store w)))
  /\ (~ eligible act newCount (claimed_of (store w) k) ->
      profiles (store w') = profiles (store w))
  /\ (threshold act < newCount -> profiles (store w') = profiles (store w)).
Proof.
  intros Hu Hp k newCount w'. subst w'.
  rewrite (trackActivity_store _ _ _ _ Hu).
  assert (Hno : ~ eligible act newCount (claimed_of (store w) k) ->
                profiles (tracked (store w) u act now) = profiles (store w)).
  { apply tracked_not_eligible. }
  split; [|split; [|split]].
  - rewrite tracked_points. case_bool_decide as Hc.
    + split; [by intros _; destruct Hc as (_ & _ & ?)|done].
    + split; [lia|]. intros Hel. exfalso. apply Hc. rewrite Hp. eauto.
  - intros Hel. by rewrite (tracked_eligible _ _ _ _ Hel), Hp.
  - exact Hno.
  - intros Hpast. apply Hno.
    intros [(-> & Hn & _)|(-> & Hn & _)]; simpl in Hpast; lia.
Qed.

(** C7 fails as stated: the thirtieth quiz of a user without a Profile
    row is eligible, and no points are credited to anyone. *)
Lemma milestone_bonus_not_credited :
  let w' := trackActivity (Some "ghost") quiz 7 ghost29 in
  profiles (store ghost29) !! "ghost" = None
  /\ eligible quiz (count_of (store ghost29) ("ghost", "quiz") + 1)
              (claimed_of (store ghost29) ("ghost", "quiz"))
  /\ profiles (store w') = profiles (store ghost29)
  /\ points_of (store w') "ghost" = points_of (store ghost29) "ghost"
  /\ achievement_progress (store w') !! ("ghost", "quiz") = Some (Progress 30 7 true)
  /\ ~ bonus_credited_iff_at ghost29 "ghost" quiz 7.
Proof.
  assert (Hel : eligible quiz (count_of (store ghost29) ("ghost", "quiz") + 1)
                         (claimed_of (store ghost29) ("ghost", "quiz"))).
  { left. by vm_compute. }
  simpl. split; [reflexivity|]. split; [exact Hel|].
  split; [by vm_compute|]. split; [by vm_compute|]. split; [by vm_compute|].
  intros Hiff. apply Hiff in Hel. vm_compute in Hel. discriminate.
Qed.

(** The login call of the hook changes the store as the procedure does. *)
Lemma handleDailyLogin_store userId today w :
  store (handleDailyLogin userId today w).2 =
    match truthy userId with
    | Some u => (handle_daily_login (store w) u today).2
    | None => store w
    end.
Proof.
  unfold handleDailyLogin, handleDailyLogin_racing.
  destruct (truthy userId) as [u|]; [|done]. simpl.
  fold (handle_daily_login (store w) u today).
  destruct (handle_daily_login (store w) u today) as [[r|e] d']; simpl; [|done].
  by destruct (is_new_login r && (0 <? points_earned r)).
Qed.

(** The procedure never writes [achievement_progress]. *)
Lemma handle_daily_login_progress d u today :
  achievement_progress (handle_daily_login d u today).2 = achievement_progress d.
Proof.
  destruct (decide ((u, today) ∈ daily_logins d)) as [Hin|Hout].
  - by rewrite (handle_daily_login_present _ _ _ Hin).
  - rewrite (handle_daily_login_new _ _ _ Hout). simpl.
    by destruct (int4_fits _).
Qed.

(** The points of any user after a call of the procedure: what they
    were, plus the reward when the call is a new login of that user. *)
Lemma handle_daily_login_points d u today u' :
  exists delta,
    (delta = 0 \/ delta = 10 \/ delta = 50)
    /\ points_of (handle_daily_login d u today).2 u' = points_of d u' + delta.
Proof.
  destruct (decide ((u, today) ∈ daily_logins d)) as [Hin|Hout].
  { rewrite (handle_daily_login_present _ _ _ Hin). exists 0. simpl. lia. }
  rewrite (handle_daily_login_new _ _ _ Hout). unfold points_of. simpl.
  destruct (int4_fits _); simpl; [|exists 0; lia].
  destruct (profiles d !! u) as [p|] eqn:Hp; [|exists 0; lia].
  destruct (decide (u' = u)) as [->|Hne].
  - exists (reward (next_streak (Some p) today)). split.
    + unfold reward. destruct (_ =? 30); lia.
    + rewrite lookup_insert_eq, Hp. simpl.
      by rewrite !or_zero_COALESCE.
  - exists 0. rewrite lookup_insert_ne by done. lia.
Qed.

Lemma step_claimed w o k :
  claimed_of (store w) k = true -> claimed_of (store (step w o)) k = true.
Proof.
  intros Hk. destruct o as [userId today|userId act now]; simpl.
  - rewrite handleDailyLogin_store. destruct (truthy userId) as [u|]; [|done].
    unfold claimed_of. by rewrite handle_daily_login_progress.
  - destruct userId as [u|]; [|done].
    destruct (decide (u = "")) as [->|Hu]; [done|].
    rewrite (trackActivity_store _ _ _ _ Hu). by apply tracked_claimed.
Qed.

Lemma run_claimed ops : forall w k,
  claimed_of (store w) k = true -> claimed_of (store (run ops w)) k = true.
Proof.
  induction ops as [|o ops IH]; intros w k Hk; [done|].
  simpl. apply IH. by apply step_claimed.
Qed.

(** C8: once [bonus_claimed] is true for a pair it is true after every
    sequence of core operations, so it goes from false to true at most
    once; and from then on no call of [trackActivity] for the pair
    writes to any Profile, whatever the count. *)
Theorem bonus_claimed_is_final w u act :
  claimed_of (store w) (u, activity_text act) = true ->
  forall ops,
    claimed_of (store (run ops w)) (u, activity_text act) = true
    /\ forall now,
         profiles (store (trackActivity (Some u) act now (run ops w)))
         = profiles (store (run ops w)).
Proof.
  intros Hk ops.
  pose proof (run_claimed ops w _ Hk) as Hlater.
  split; [exact Hlater|]. intros now.
  destruct (decide (u = "")) as [->|Hu]; [done|].
  rewrite (trackActivity_store _ _ _ _ Hu).
  apply tracked_not_eligible. rewrite Hlater.
  by intros [(_ & _ & ?)|(_ & _ & ?)].
Qed.

Lemma trackActivity_falsy userId act now w :
  truthy userId = None -> trackActivity userId act now w = w.
Proof. intros Hfalsy. unfold trackActivity. by rewrite Hfalsy. Qed.

Lemma step_points w o u :
  exists delta,
    (delta = 0 \/ delta = 10 \/ delta = 50)
    /\ points_of (store (step w o)) u = points_of (store w) u + delta.
Proof.
  destruct o as [userId today|userId act now]; simpl.
  - rewrite handleDailyLogin_store. destruct (truthy userId) as [u0|].
    + apply handle_daily_login_points.
    + exists 0. lia.
  - destruct (truthy userId) as [u0|] eqn:Hid.
    2:{ rewrite (trackActivity_falsy _ _ _ _ Hid). exists 0. lia. }
    destruct userId as [u1|]; [|done]. simpl in Hid.
    destruct (decide (u1 = "")) as [|Hu]; [done|]. injection Hid as ->.
    rewrite (trackActivity_store _ _ _ _ Hu), tracked_points.
    case_bool_decide; [exists 50|exists 0]; lia.
Qed.

(** C9: every core operation leaves each Profile's points at their prior
    value ([NULL] counting as 0) plus a delta of 0, 10 or 50, so points
    never decrease across a sequence of core operations. *)
Theorem points_never_decrease w ops u :
  (forall o, exists delta,
      0 <= delta
      /\ points_of (store (step w o)) u = points_of (store w) u + delta)
  /\ points_of (store w) u <= points_of (store (run ops w)) u.
Proof.
  split.
  - intros o. destruct (step_points w o u) as (delta & Hdelta & Hstep).
    exists delta. split; [lia|done].
  - revert w. unfold run. induction ops as [|o ops IH]; intros w; simpl; [lia|].
    destruct (step_points w o u) as (delta & Hdelta & Hstep).
    specialize (IH (step w o)). lia.
Qed.

(** C10: with [userId] undefined, [handleDailyLogin] and [trackActivity]
    return at once: no request is sent to the record store, and the
    store, the hook's state and what was shown stay as they were. *)
Theorem undefined_user_is_noop w today act now :
  handleDailyLogin None today w = (None, w)
  /\ trackActivity None act now w = w
  /\ calls (handleDailyLogin None today w).2 = calls w
  /\ calls (trackActivity None act now w) = calls w.
Proof. done. Qed.

End Achievements.

(** ** The claims at concrete inputs *)

Section Witnesses.

(** C1 at the second call of day 20. *)
Lemma same_day_login_is_noop_witness :
  ("u", 20) ∈ daily_logins streak5_logged
  /\ handle_daily_login streak5_logged "u" 20 =
       (Ok (LoginRow 0 6 false), streak5_logged).
Proof.
  assert (Hin : ("u", 20) ∈ daily_logins streak5_logged) by (by vm_compute).
  split; [exact Hin|].
  exact (proj1 (same_day_login_is_noop streak5_logged "u" 20 Hin)).
Defined.

(** C2 at a streak of 5 continued on day 20. *)
Lemma new_login_streak_witness :
  (("u", 20) ∉ daily_logins streak5)
  /\ profiles streak5 !! "u" = Some (Profile (Some 100) (Some 5) (Some 19))
  /\ streak_rule_at streak5 "u" 20 (Profile (Some 100) (Some 5) (Some 19)).
Proof.
  assert (Hnew : ("u", 20) ∉ daily_logins streak5) by (by vm_compute).
  assert (Hp : profiles streak5 !! "u" = Some (Profile (Some 100) (Some 5) (Some 19)))
    by reflexivity.
  split; [exact Hnew|]. split; [exact Hp|].
  apply (new_login_streak streak5 "u" 20 _ Hnew Hp).
  intros _. by vm_compute.
Defined.

(** C3 at the login that reaches a streak of 30. *)
Lemma new_login_reward_witness :
  (("u", 20) ∉ daily_logins streak29)
  /\ (handle_daily_login streak29 "u" 20).1 = Ok (LoginRow 50 30 true)
  /\ profiles (handle_daily_login streak29 "u" 20).2 !! "u"
     = Some (Profile (Some 340) (Some 30) (Some 20)).
Proof.
  assert (Hout : ("u", 20) ∉ daily_logins streak29) by (by vm_compute).
  assert (Hrange : INT_MIN <= next_streak (profiles streak29 !! "u") 20 <= INT_MAX)
    by (by vm_compute).
  destruct (new_login_reward streak29 "u" 20) as [Hrow Hcredit].
  split; [exact Hout|]. split.
  - exact (proj1 (proj2 (Hrow (LoginRow 50 30 true))
                        (conj Hout (conj Hrange eq_refl)))).
  - exact (Hcredit Hout Hrange (Profile (Some 290) (Some 29) (Some 19)) eq_refl).
Defined.

(** C4 at two sessions of [u] on day 20. *)
Lemma login_conflict_raises_witness :
  (("u", 20) ∉ daily_logins (store (fresh streak5)))
  /\ ("u", 20) ∈ daily_logins (winner (store (fresh streak5)))
  /\ exists e,
       handle_daily_login_racing winner streak5 "u" 20 = (Err e, winner streak5)
       /\ handleDailyLogin_racing winner (Some "u") 20 (fresh streak5) =
            (None, World (winner streak5) [rpc_handle_daily_login "u"] 0 ∅ [] [e])
       /\ (int4_fits (next_streak (profiles streak5 !! "u") 20) = true ->
           e = unique_violation).
Proof.
  assert (Hu : "u" <> "") by discriminate.
  assert (Hnew : ("u", 20) ∉ daily_logins (store (fresh streak5))) by (by vm_compute).
  assert (Hthere : ("u", 20) ∈ daily_logins (winner (store (fresh streak5))))
    by (by vm_compute).
  split; [exact Hnew|]. split; [exact Hthere|].
  exact (login_conflict_raises winner (fresh streak5) "u" 20 Hu Hnew Hthere).
Defined.

(** C5 at a user of an empty store. *)
Lemma missing_profile_is_defaulted_witness :
  profiles (Db ∅ ∅ ∅) !! "ghost" = None
  /\ handle_daily_login (Db ∅ ∅ ∅) "ghost" 20 =
       (Ok (LoginRow 10 1 true), Db ∅ ({[ ("ghost", 20) ]} ∪ ∅) ∅).
Proof.
  split; [reflexivity|].
  exact (missing_profile_is_defaulted (Db ∅ ∅ ∅) "ghost" 20 eq_refl).
Defined.

(** C6 at the thirtieth quiz. *)
Lemma activity_count_incremented_witness :
  count_of (store quiz29) ("u", "quiz") = 29
  /\ count_incremented_at quiz29 "u" quiz 7
  /\ upsert_progress "u" "quiz" 30 7 ∈ calls (trackActivity (Some "u") quiz 7 quiz29).
Proof.
  assert (Hu : "u" <> "") by discriminate.
  assert (Hfit : INT_MIN <= count_of (store quiz29) ("u", activity_text quiz) + 1 <= INT_MAX)
    by (by vm_compute).
  split; [reflexivity|].
  destruct (activity_count_incremented quiz29 "u" quiz 7 Hu Hfit) as (Hrow & Hcall & _).
  split; [exact Hrow|exact Hcall].
Defined.

(** C7 at the thirtieth quiz. *)
Lemma milestone_bonus_iff_witness :
  profiles (store quiz29) !! "u" = Some (Profile (Some 100) (Some 5) (Some 19))
  /\ eligible quiz 30 false
  /\ points_of (store (trackActivity (Some "u") quiz 7 quiz29)) "u" = 100 + 50.
Proof.
  assert (Hu : "u" <> "") by discriminate.
  assert (Hp : profiles (store quiz29) !! "u" = Some (Profile (Some 100) (Some 5) (Some 19)))
    by reflexivity.
  assert (Hel : eligible quiz 30 false) by (by left).
  split; [exact Hp|]. split; [exact Hel|].
  exact (proj2 (proj1 (milestone_bonus_iff quiz29 "u" quiz 7 _ Hu Hp)) Hel).
Defined.

(** C8 after the quiz bonus was claimed. *)
Lemma bonus_claimed_is_final_witness :
  claimed_of (store quiz30_claimed) ("u", "quiz") = true
  /\ claimed_of (store (run [Track (Some "u") quiz 8; Login (Some "u") 20]
                            quiz30_claimed)) ("u", "quiz") = true
  /\ profiles (store (trackActivity (Some "u") quiz 9 quiz30_claimed))
     = profiles (store quiz30_claimed).
Proof.
  assert (Hk : claimed_of (store quiz30_claimed) ("u", activity_text quiz) = true)
    by reflexivity.
  split; [exact Hk|]. split.
  - exact (proj1 (bonus_claimed_is_final quiz30_claimed "u" quiz Hk
                    [Track (Some "u") quiz 8; Login (Some "u") 20])).
  - exact (proj2 (bonus_claimed_is_final quiz30_claimed "u" quiz Hk []) 9).
Defined.

End Witnesses.

(** ** The testable properties of the specification, run *)

Section Examples.

(** A first call and a second call on day 20. *)
Example login_twice :
  (handle_daily_login streak5 "u" 20).1 = Ok (LoginRow 10 6 true)
  /\ handle_daily_login streak5_logged "u" 20 = (Ok (LoginRow 0 6 false), streak5_logged)
  /\ profiles streak5_logged !! "u" = Some (Profile (Some 110) (Some 6) (Some 20)).
Proof. by vm_compute. Qed.

(** A first login ever, a login after a gap, and a last login date in
    the future. *)
Example login_resets :
  (handle_daily_login (Db {[ "u" := Profile (Some 0) (Some 0) None ]} ∅ ∅) "u" 20).1
    = Ok (LoginRow 10 1 true)
  /\ (handle_daily_login (Db {[ "u" := Profile (Some 70) (Some 7) (Some 17) ]} ∅ ∅) "u" 20).1
    = Ok (LoginRow 10 1 true)
  /\ (handle_daily_login (Db {[ "u" := Profile (Some 70) (Some 7) (Some 21) ]} ∅ ∅) "u" 20).1
    = Ok (LoginRow 10 1 true).
Proof. by vm_compute. Qed.

(** Thirty quiz activities from no progress: the count is 30, the bonus
    is claimed and 50 points were credited, once; the next ones credit
    nothing. *)
Example thirty_quizzes :
  let w30 := track_many "u" quiz (Z.of_nat <$> seq 1 30) (fresh streak5) in
  let w32 := track_many "u" quiz [31; 32] w30 in
  achievement_progress (store w30) !! ("u", "quiz") = Some (Progress 30 30 true)
  /\ points_of (store w30) "u" = 150
  /\ toasts w30 = [AchievementUnlocked Quizzes30 50]
  /\ achievement_progress (store w32) !! ("u", "quiz") = Some (Progress 32 32 true)
  /\ points_of (store w32) "u" = 150.
Proof. by vm_compute. Qed.

(** A count that is already past the milestone: no bonus. *)
Example past_the_milestone :
  let w := fresh (Db {[ "u" := Profile (Some 100) (Some 5) (Some 19) ]} ∅
                     {[ ("u", "quiz") := Progress 30 6 false ]}) in
  let w' := trackActivity (Some "u") quiz 7 w in
  achievement_progress (store w') !! ("u", "quiz") = Some (Progress 31 7 false)
  /\ points_of (store w') "u" = 100.
Proof. by vm_compute. Qed.

End Examples.

(** ** More on the daily-login procedure *)

Section DailyLoginMore.

Implicit Types (d : db) (u : uuid) (today : date) (p : profile).

Lemma next_streak_Some p today :
  next_streak (Some p) today =
    if bool_decide (last_login_date p = Some (today - 1))
    then COALESCE (current_streak p) 0 + 1 else 1.
Proof. unfold next_streak. simpl. by rewrite sql_true_eq_date. Qed.

Lemma int4_fits_spec x : int4_fits x = true <-> INT_MIN <= x <= INT_MAX.
Proof. unfold int4_fits. rewrite andb_true_iff, !Z.leb_le. done. Qed.

(** X1: a call of [handle_daily_login] during which no other session
    commits fails exactly when there is no login of today, the Profile's
    last login is yesterday and its streak plus 1 is no [INTEGER]; the
    error is then [numeric_value_out_of_range] and the store is left as
    it was. *)
Theorem handle_daily_login_fails_iff d u today e :
  ((handle_daily_login d u today).1 = Err e
   <-> e = numeric_value_out_of_range
       /\ ((u, today) ∉ daily_logins d)
       /\ exists p, profiles d !! u = Some p
            /\ last_login_date p = Some (today - 1)
            /\ ~ (INT_MIN <= COALESCE (current_streak p) 0 + 1 <= INT_MAX))
  /\ ((handle_daily_login d u today).1 = Err e ->
      (handle_daily_login d u today).2 = d).
Proof.
  destruct (decide ((u, today) ∈ daily_logins d)) as [Hin|Hout].
  { rewrite (handle_daily_login_present _ _ _ Hin). simpl.
    split; [|done]. split; [done|]. by intros (_ & Hnot & _). }
  rewrite (handle_daily_login_new _ _ _ Hout). simpl.
  destruct (int4_fits _) eqn:Hfit; simpl.
  - split; [|done]. split; [done|].
    intros (_ & _ & p & Hp & Hlast & Hbad). exfalso. apply Hbad.
    rewrite Hp, next_streak_Some, bool_decide_eq_true_2 in Hfit by done.
    by apply int4_fits_spec.
  - split; [|done]. split.
    + intros [= <-]. split; [done|]. split; [done|].
      destruct (profiles d !! u) as [p|] eqn:Hp; [|done].
      rewrite next_streak_Some in Hfit. case_bool_decide as Hlast; [|done].
      exists p. split; [done|]. split; [done|].
      intros Hok. apply int4_fits_spec in Hok. congruence.
    + by intros (-> & _).
Qed.

(** What a call never touches: the set of Profile rows, the activity
    counters and the login records there are. *)
Lemma handle_daily_login_keeps d u today :
  let d' := (handle_daily_login d u today).2 in
  dom (profiles d') = dom (profiles d)
  /\ achievement_progress d' = achievement_progress d
  /\ daily_logins d ⊆ daily_logins d'.
Proof.
  destruct (decide ((u, today) ∈ daily_logins d)) as [Hin|Hout].
  { by rewrite (handle_daily_login_present _ _ _ Hin). }
  rewrite (handle_daily_login_new _ _ _ Hout). simpl.
  destruct (int4_fits _); simpl; [|done].
  split_and!; [|done|apply union_subseteq_r].
  destruct (profiles d !! u) as [p|] eqn:Hp; [|done].
  rewrite dom_insert_L. apply subseteq_union_1_L.
  apply singleton_subseteq_l, elem_of_dom. eauto.
Qed.

(** X2: a call of [handle_daily_login] writes nothing but the caller's
    own rows: every other Profile is as before, no Profile row appears or
    disappears, the activity counters are untouched, and the login
    records are the old ones with at most the one of today added. *)
Theorem handle_daily_login_frame d u today :
  let d' := (handle_daily_login d u today).2 in
  delete u (profiles d') = delete u (profiles d)
  /\ dom (profiles d') = dom (profiles d)
  /\ achievement_progress d' = achievement_progress d
  /\ daily_logins d ⊆ daily_logins d'
  /\ daily_logins d' ⊆ {[ (u, today) ]} ∪ daily_logins d.
Proof.
  destruct (handle_daily_login_keeps d u today) as (Hdom & Hprogress & Hlogins).
  split_and!; [|exact Hdom|exact Hprogress|exact Hlogins|].
  - destruct (decide ((u, today) ∈ daily_logins d)) as [Hin|Hout].
    { by rewrite (handle_daily_login_present _ _ _ Hin). }
    rewrite (handle_daily_login_new _ _ _ Hout). simpl.
    destruct (int4_fits _); simpl; [|done].
    destruct (profiles d !! u); [apply delete_insert_eq|done].
  - destruct (decide ((u, today) ∈ daily_logins d)) as [Hin|Hout].
    { rewrite (handle_daily_login_present _ _ _ Hin). apply union_subseteq_r. }
    rewrite (handle_daily_login_new _ _ _ Hout). simpl.
    destruct (int4_fits _); simpl; [done|apply union_subseteq_r].
Qed.

(** The store after a login that returns a new login, for a user with a
    Profile. *)
Lemma handle_daily_login_new_profile d u today p r d' :
  profiles d !! u = Some p ->
  handle_daily_login d u today = (Ok r, d') ->
  is_new_login r = true ->
  ((u, today) ∉ daily_logins d)
  /\ r = LoginRow (reward (streak_count r)) (streak_count r) true
  /\ d' = Db (<[u := Profile (Some (COALESCE (points p) 0 + reward (streak_count r)))
                            (Some (streak_count r)) (Some today)]> (profiles d))
             ({[ (u, today) ]} ∪ daily_logins d) (achievement_progress d)
  /\ INT_MIN <= streak_count r <= INT_MAX.
Proof.
  intros Hp Hcall Hnew.
  destruct (decide ((u, today) ∈ daily_logins d)) as [Hin|Hout].
  { rewrite (handle_daily_login_present _ _ _ Hin) in Hcall.
    injection Hcall as <- _. discriminate. }
  rewrite (handle_daily_login_new _ _ _ Hout), Hp in Hcall. simpl in Hcall.
  destruct (int4_fits _) eqn:Hfit; [|discriminate].
  injection Hcall as <- <-. simpl.
  by apply int4_fits_spec in Hfit.
Qed.

(** X3: after a new login of a user with a Profile, the login of the
    next day continues the streak (one more, with the reward of that
    streak) provided the streak is below 2147483647, and a login two or
    more days later starts again at 1 with 10 points. *)
Theorem login_on_later_day d u today r d' (gap : Z) :
  is_Some (profiles d !! u) ->
  handle_daily_login d u today = (Ok r, d') ->
  is_new_login r = true ->
  1 <= gap ->
  ((u, today + gap) ∉ daily_logins d) ->
  streak_count r < INT_MAX ->
  (handle_daily_login d' u (today + gap)).1 =
    if decide (gap = 1)
    then Ok (LoginRow (reward (streak_count r + 1)) (streak_count r + 1) true)
    else Ok (LoginRow 10 1 true).
Proof.
  intros [p Hp] Hcall Hnew Hgap Hfree Hmax.
  destruct (handle_daily_login_new_profile _ _ _ _ _ _ Hp Hcall Hnew)
    as (_ & _ & -> & Hrange).
  rewrite handle_daily_login_new; cycle 1.
  { simpl. apply not_elem_of_union. split; [|done].
    rewrite elem_of_singleton. intros [=]. lia. }
  simpl. rewrite lookup_insert_eq, next_streak_Some. simpl.
  destruct (decide (gap = 1)) as [->|Hne].
  - rewrite bool_decide_eq_true_2 by (f_equal; lia).
    assert (Hfit : int4_fits (streak_count r + 1) = true)
      by (apply int4_fits_spec; lia).
    by rewrite Hfit.
  - rewrite bool_decide_eq_false_2 by (intros [=]; lia). done.
Qed.

(** A run that continues a streak of [s] reached the day before. *)
Lemma login_days_continue n : forall u day d q s,
  profiles d !! u = Some (Profile (Some q) (Some s) (Some (day - 1))) ->
  (forall k, 0 <= k -> (u, day + k) ∉ daily_logins d) ->
  INT_MIN <= s + 1 -> s + Z.of_nat n <= INT_MAX ->
  profiles (login_days n u day d) !! u =
    Some (Profile (Some (q + 10 * Z.of_nat n
                         + (if (s <? 30) && (30 <=? s + Z.of_nat n) then 40 else 0)))
                  (Some (s + Z.of_nat n)) (Some (day - 1 + Z.of_nat n))).
Proof.
  induction n as [|n IH]; intros u day d q s Hp Hfree Hlo Hhi.
  { cbn [login_days]. rewrite Hp. change (Z.of_nat 0) with 0.
    rewrite Z.mul_0_r, !Z.add_0_r.
    replace ((s <? 30) && (30 <=? s)) with false
      by (destruct (Z.ltb_spec s 30), (Z.leb_spec 30 s); simpl; lia).
    by rewrite Z.add_0_r. }
  cbn [login_days].
  assert (Hnew : (u, day) ∉ daily_logins d).
  { specialize (Hfree 0 ltac:(lia)). by rewrite Z.add_0_r in Hfree. }
  rewrite (handle_daily_login_new _ _ _ Hnew), Hp, next_streak_Some. simpl.
  rewrite bool_decide_eq_true_2 by done.
  assert (Hfit : int4_fits (s + 1) = true) by (apply int4_fits_spec; lia).
  rewrite Hfit. simpl.
  erewrite IH; cycle 1.
  - simpl. rewrite lookup_insert_eq. do 4 f_equal. lia.
  - intros k Hk. simpl.
    specialize (Hfree (1 + k) ltac:(lia)).
    replace (day + 1 + k) with (day + (1 + k)) by lia.
    apply not_elem_of_union. split; [|done].
    rewrite elem_of_singleton. intros [=]. lia.
  - lia.
  - lia.
  - rewrite Nat2Z.inj_succ. set (m := Z.of_nat n). assert (0 <= m) by lia.
    unfold reward. simpl.
    destruct (Z.eqb_spec (s + 1) 30), (Z.ltb_spec s 30), (Z.ltb_spec (s + 1) 30),
      (Z.leb_spec 30 (s + 1 + m)), (Z.leb_spec 30 (s + Z.succ m));
      simpl; try lia; f_equal; f_equal; f_equal; lia.
Qed.

(** X4: [n >= 1] logins on consecutive days, starting on a day that
    does not continue a streak, leave the Profile with a streak of [n],
    the last day as last login date, and the points it had plus 10 a day
    plus 40 once the run has reached 30 days. *)
Theorem login_days_from_reset (n : nat) u day d p :
  profiles d !! u = Some p ->
  last_login_date p <> Some (day - 1) ->
  (forall k, 0 <= k -> (u, day + k) ∉ daily_logins d) ->
  (1 <= n)%nat -> Z.of_nat n <= INT_MAX ->
  profiles (login_days n u day d) !! u =
    Some (Profile (Some (COALESCE (points p) 0 + 10 * Z.of_nat n
                         + (if 30 <=? Z.of_nat n then 40 else 0)))
                  (Some (Z.of_nat n)) (Some (day + Z.of_nat n - 1))).
Proof.
  intros Hp Hlast Hfree Hn Hmax.
  destruct n as [|n]; [lia|]. cbn [login_days].
  assert (Hnew : (u, day) ∉ daily_logins d).
  { specialize (Hfree 0 ltac:(lia)). by rewrite Z.add_0_r in Hfree. }
  rewrite (handle_daily_login_new _ _ _ Hnew), Hp, next_streak_Some. simpl.
  rewrite bool_decide_eq_false_2 by done. simpl.
  erewrite (login_days_continue n u (day + 1) _ _ 1); cycle 1.
  - simpl. rewrite lookup_insert_eq. do 4 f_equal. lia.
  - intros k Hk. simpl.
    specialize (Hfree (1 + k) ltac:(lia)).
    replace (day + 1 + k) with (day + (1 + k)) by lia.
    apply not_elem_of_union. split; [|done].
    rewrite elem_of_singleton. intros [=]. lia.
  - unfold INT_MIN. lia.
  - lia.
  - rewrite Nat2Z.inj_succ. set (m := Z.of_nat n). assert (0 <= m) by lia.
    change (reward 1) with 10. simpl.
    destruct (Z.leb_spec 30 (1 + m)), (Z.leb_spec 30 (Z.succ m));
      simpl; try lia; f_equal; f_equal; f_equal; lia.
Qed.

End DailyLoginMore.

(** ** More on the hook *)

Section HookMore.

Implicit Types (d : db) (u : uuid) (w : world) (act : activity) (now : timestamp).

(** X5: [handleDailyLogin] shows the daily-reward toast exactly when the
    call returns a new login; the toast carries the points earned, and
    the sentence about the streak bonus is in it exactly when the streak
    returned is 30. *)
Theorem daily_reward_toast_iff userId today w :
  toasts (handleDailyLogin userId today w).2 =
    match (handleDailyLogin userId today w).1 with
    | Some result =>
        if is_new_login result
        then DailyReward (points_earned result)
                         (bool_decide (streak_count result = 30)) :: toasts w
        else toasts w
    | None => toasts w
    end.
Proof.
  unfold handleDailyLogin, handleDailyLogin_racing.
  destruct (truthy userId) as [u|]; [|done]. simpl.
  fold (handle_daily_login (store w) u today).
  destruct (decide ((u, today) ∈ daily_logins (store w))) as [Hin|Hout].
  { by rewrite (handle_daily_login_present _ _ _ Hin). }
  rewrite (handle_daily_login_new _ _ _ Hout). simpl.
  destruct (int4_fits _); [|done]. simpl. unfold reward.
  destruct (Z.eqb_spec (next_streak (profiles (store w) !! u) today) 30) as [Heq|Hne];
    simpl.
  - by rewrite bool_decide_eq_true_2.
  - by rewrite bool_decide_eq_false_2.
Qed.


(** The whole world one call leaves, for a user identifier that passes
    the guard. *)
Lemma trackActivity_world w u act now :
  u <> "" ->
  let k := (u, activity_text act) in
  let n := count_of (store w) k + 1 in
  let el := bool_decide (eligible act n (claimed_of (store w) k)) in
  trackActivity (Some u) act now w =
    if int4_fits n then
      World (tracked (store w) u act now)
            (later_requests u act (points_of (store w) u + 50) el
             ++ upsert_progress u (activity_text act) n now
             :: select_progress_single u (activity_text act) :: calls w)
            (loginStreak w)
            (filter (fun kr => kr.1.1 = u)
                    (achievement_progress (tracked (store w) u act now)))
            (if el
             then AchievementUnlocked
                    (match act with quiz => Quizzes30 | game => Games50 end) 50
                  :: toasts w
             else toasts w)
            (console w)
    else
      World (store w)
            (upsert_progress u (activity_text act) n now
             :: select_progress_single u (activity_text act) :: calls w)
            (loginStreak w) (achievementProgress w) (toasts w)
            (numeric_value_out_of_range :: console w).
Proof.
  intros Hu k n el. subst k n el.
  unfold tracked, count_of, claimed_of, points_of, later_requests.
  unfold trackActivity, trackActivity_try.
  rewrite (truthy_Some _ Hu). simpl.
  unfold upsert_achievement_progress, int4.
  destruct (int4_fits _) eqn:Hfit; simpl; [|done].
  destruct act; simpl.
  - destruct ((_ =? 30) && negb _) eqn:Hel; simpl.
    + rewrite bool_decide_eq_true_2, decide_True by (by apply eligible_quiz).
      unfold award_bonus, fetchAchievementProgress, update_profile_points.
      rewrite (truthy_Some _ Hu). simpl.
      destruct (profiles (store w) !! u); simpl; by rewrite alter_insert_eq.
    + rewrite bool_decide_eq_false_2, decide_False
        by (rewrite eligible_quiz; by rewrite Hel).
      unfold fetchAchievementProgress. by rewrite (truthy_Some _ Hu).
  - destruct ((_ =? 50) && negb _) eqn:Hel; simpl.
    + rewrite bool_decide_eq_true_2, decide_True by (by apply eligible_game).
      unfold award_bonus, fetchAchievementProgress, update_profile_points.
      rewrite (truthy_Some _ Hu). simpl.
      destruct (profiles (store w) !! u); simpl; by rewrite alter_insert_eq.
    + rewrite bool_decide_eq_false_2, decide_False
        by (rewrite eligible_game; by rewrite Hel).
      unfold fetchAchievementProgress. by rewrite (truthy_Some _ Hu).
Qed.

Lemma tracked_keeps d u act now :
  let d' := tracked d u act now in
  daily_logins d' = daily_logins d
  /\ delete u (profiles d') = delete u (profiles d)
  /\ dom (profiles d') = dom (profiles d)
  /\ delete (u, activity_text act) (achievement_progress d')
     = delete (u, activity_text act) (achievement_progress d)
  /\ dom (achievement_progress d) ⊆ dom (achievement_progress d').
Proof.
  unfold tracked. destruct (int4_fits _); [|done].
  destruct (decide _); simpl.
  - split_and!; [done| | |apply delete_insert_eq|].
    + destruct (profiles d !! u); [apply delete_insert_eq|done].
    + destruct (profiles d !! u) as [p|] eqn:Hp; [|done].
      rewrite dom_insert_L. apply subseteq_union_1_L.
      apply singleton_subseteq_l, elem_of_dom. eauto.
    + rewrite dom_insert_L. apply union_subseteq_r.
  - split_and!; [done..|apply delete_insert_eq|].
    rewrite dom_insert_L. apply union_subseteq_r.
Qed.

(** X6: a call of [trackActivity] writes nothing but the caller's
    Profile and the row of the pair: the login records, every other
    Profile and every other counter row are as before, and no Profile
    row appears or disappears. *)
Theorem trackActivity_frame w u act now :
  let d := store w in
  let d' := store (trackActivity (Some u) act now w) in
  daily_logins d' = daily_logins d
  /\ delete u (profiles d') = delete u (profiles d)
  /\ dom (profiles d') = dom (profiles d)
  /\ delete (u, activity_text act) (achievement_progress d')
     = delete (u, activity_text act) (achievement_progress d).
Proof.
  destruct (decide (u = "")) as [->|Hu]; [done|]. simpl.
  rewrite (trackActivity_store _ _ _ _ Hu).
  destruct (tracked_keeps (store w) u act now) as (? & ? & ? & ? & _). done.
Qed.

(** X7: for a user identifier that passes the guard, after a call of
    [trackActivity] whose upsert is accepted the rows the hook exposes
    are exactly the user's rows of the store, the new count included;
    after a call whose upsert is refused they are what they were and the
    error is in the console. *)
Theorem trackActivity_refreshes w u act now :
  u <> "" ->
  let w' := trackActivity (Some u) act now w in
  if int4_fits (count_of (store w) (u, activity_text act) + 1)
  then achievementProgress w'
       = filter (fun kr => kr.1.1 = u) (achievement_progress (store w'))
       /\ current_count <$> achievementProgress w' !! (u, activity_text act)
          = Some (count_of (store w) (u, activity_text act) + 1)
  else achievementProgress w' = achievementProgress w
       /\ store w' = store w
       /\ console w' = numeric_value_out_of_range :: console w.
Proof.
  intros Hu w'. subst w'. rewrite (trackActivity_world _ _ _ _ Hu).
  destruct (int4_fits _) eqn:Hfit; simpl; [|done].
  split; [done|].
  destruct (tracked_row (store w) u act now Hfit) as [c Hrow].
  erewrite map_lookup_filter_Some_2; [|exact Hrow|done]. done.
Qed.


Lemma eligible_threshold act n c :
  eligible act n c <-> n = threshold act /\ c = false.
Proof.
  unfold eligible. destruct act; simpl.
  - split; [intros [(_ & ? & ?)|(? & _)]; done|intros [? ?]; left; done].
  - split; [intros [(? & _)|(_ & ? & ?)]; done|intros [? ?]; right; done].
Qed.

(** Count, flag and Profile row after one accepted call. *)
Lemma tracked_state d u act now :
  let k := (u, activity_text act) in
  int4_fits (count_of d k + 1) = true ->
  count_of (tracked d u act now) k = count_of d k + 1
  /\ claimed_of (tracked d u act now) k
     = claimed_of d k || bool_decide (count_of d k + 1 = threshold act)
  /\ (is_Some (profiles (tracked d u act now) !! u) <-> is_Some (profiles d !! u)).
Proof.
  intros k Hfit. split; [|split].
  - destruct (tracked_row d u act now Hfit) as [c Hrow].
    by apply count_of_row in Hrow.
  - unfold tracked. fold k. rewrite Hfit.
    destruct (decide _) as [Hel|Hel]; unfold claimed_of at 1; simpl;
      rewrite lookup_insert_eq; simpl.
    + apply eligible_threshold in Hel as [Hn ->].
      by rewrite bool_decide_eq_true_2.
    + destruct (claimed_of d k) eqn:Hc; [done|].
      rewrite bool_decide_eq_false_2; [done|].
      intros Hn. apply Hel, eligible_threshold. done.
  - destruct (tracked_keeps d u act now) as (_ & _ & Hdom & _).
    by rewrite <- !elem_of_dom, Hdom.
Qed.

(** X9: over any number of calls of [trackActivity] for one pair, with
    counts staying in the [INTEGER] range, the Profile's points grow by
    50 exactly when a Profile row exists, the flag was not set and the
    count passes the milestone during the run; otherwise they do not
    change.  The bonus is credited at most once. *)
Theorem track_many_bonus_once u act nows : forall w,
  u <> "" ->
  INT_MIN <= count_of (store w) (u, activity_text act) + 1 ->
  count_of (store w) (u, activity_text act) + Z.of_nat (length nows) <= INT_MAX ->
  points_of (store (track_many u act nows w)) u =
    points_of (store w) u +
    (if bool_decide (is_Some (profiles (store w) !! u))
        && negb (claimed_of (store w) (u, activity_text act))
        && (count_of (store w) (u, activity_text act) <? threshold act)
        && (threshold act <=? count_of (store w) (u, activity_text act)
                              + Z.of_nat (length nows))
     then 50 else 0).
Proof.
  induction nows as [|now nows IH]; intros w Hu Hlo Hhi.
  { simpl. rewrite Z.add_0_r.
    destruct (Z.ltb_spec (count_of (store w) (u, activity_text act)) (threshold act)),
      (Z.leb_spec (threshold act) (count_of (store w) (u, activity_text act)));
      rewrite ?andb_false_r; simpl; lia. }
  cbn [length] in *. rewrite Nat2Z.inj_succ in *.
  unfold track_many in *. cbn [foldl].
  set (w1 := trackActivity (Some u) act now w).
  assert (Hfit : int4_fits (count_of (store w) (u, activity_text act) + 1) = true)
    by (apply int4_fits_spec; lia).
  assert (Hw1 : store w1 = tracked (store w) u act now)
    by apply (trackActivity_store _ _ _ _ Hu).
  destruct (tracked_state (store w) u act now Hfit) as (Hc & Hcl & Hprof).
  rewrite <- Hw1 in Hc, Hcl, Hprof.
  rewrite (IH w1 Hu) by lia.
  rewrite Hc, Hcl, Hw1, tracked_points, <- Hw1.
  set (c := count_of (store w) (u, activity_text act)) in *.
  set (T := threshold act) in *.
  set (m := Z.of_nat (length nows)) in *.
  assert (Hm : 0 <= m) by lia.
  destruct (decide (is_Some (profiles (store w) !! u))) as [Hp|Hp].
  - rewrite (bool_decide_eq_true_2 (is_Some (profiles (store w1) !! u)))
      by (by apply Hprof).
    rewrite (bool_decide_eq_true_2 (is_Some (profiles (store w) !! u))) by done.
    simpl.
    destruct (claimed_of (store w) (u, activity_text act)) eqn:Hcl0; simpl.
    + rewrite bool_decide_eq_false_2; [lia|].
      intros (_ & _ & Hel). apply eligible_threshold in Hel as [_ ?]. done.
    + case_bool_decide as Heq.
      * rewrite bool_decide_eq_true_2
          by (split; [done|split; [done|by apply eligible_threshold]]).
        simpl.
        destruct (Z.ltb_spec c T), (Z.leb_spec T (c + Z.succ m)); simpl; lia.
      * rewrite bool_decide_eq_false_2.
        2:{ intros (_ & _ & Hel). apply eligible_threshold in Hel as [? _]. done. }
        simpl.
        destruct (Z.ltb_spec (c + 1) T), (Z.leb_spec T (c + 1 + m)),
          (Z.ltb_spec c T), (Z.leb_spec T (c + Z.succ m)); simpl; lia.
  - rewrite (bool_decide_eq_false_2 (is_Some (profiles (store w1) !! u)))
      by (by rewrite Hprof).
    rewrite (bool_decide_eq_false_2 (is_Some (profiles (store w) !! u))) by done.
    rewrite bool_decide_eq_false_2 by (by intros (_ & ? & _)).
    simpl. lia.
Qed.

(** X10: when the milestone is reached by a user without a Profile row,
    the write of the points matches no row and is no error: no points
    are credited to anyone, the flag is set all the same, and no later
    call for the pair credits the bonus. *)
Theorem milestone_without_profile w u act now :
  u <> "" ->
  profiles (store w) !! u = None ->
  eligible act (count_of (store w) (u, activity_text act) + 1)
           (claimed_of (store w) (u, activity_text act)) ->
  let w' := trackActivity (Some u) act now w in
  profiles (store w') = profiles (store w)
  /\ claimed_of (store w') (u, activity_text act) = true
  /\ update_points u 50 ∈ calls w'
  /\ toasts w' = AchievementUnlocked
                   (match act with quiz => Quizzes30 | game => Games50 end) 50
                 :: toasts w
  /\ forall ops now',
       profiles (store (trackActivity (Some u) act now' (run ops w')))
       = profiles (store (run ops w')).
Proof.
  intros Hu Hp Hel w'.
  pose proof (eligible_fits _ _ _ Hel) as Hfit.
  assert (Hstore : store w' = tracked (store w) u act now)
    by apply (trackActivity_store _ _ _ _ Hu).
  assert (Hclaimed : claimed_of (store w') (u, activity_text act) = true).
  { rewrite Hstore.
    destruct (tracked_state (store w) u act now Hfit) as (_ & -> & _).
    apply eligible_threshold in Hel as [-> ->].
    by rewrite bool_decide_eq_true_2. }
  split_and!.
  - by rewrite Hstore, (tracked_eligible _ _ _ _ Hel), Hp.
  - exact Hclaimed.
  - subst w'. rewrite (trackActivity_world _ _ _ _ Hu), Hfit.
    rewrite bool_decide_eq_true_2 by done. simpl.
    unfold points_of. rewrite Hp. simpl.
    apply list_elem_of_further, list_elem_of_further, list_elem_of_here.
  - subst w'. rewrite (trackActivity_world _ _ _ _ Hu), Hfit.
    by rewrite bool_decide_eq_true_2.
  - intros ops now'.
    pose proof (run_claimed ops w' _ Hclaimed) as Hlater.
    rewrite (trackActivity_store _ _ _ _ Hu).
    apply tracked_not_eligible. rewrite Hlater.
    by intros [(_ & _ & ?)|(_ & _ & ?)].
Qed.

#[local] Arguments or_zero : simpl never.

Lemma tracked_count_le d u act now k :
  count_of d k <= count_of (tracked d u act now) k.
Proof.
  unfold tracked. destruct (int4_fits _); [|lia].
  destruct (decide ((u, activity_text act) = k)) as [<-|Hne].
  - destruct (decide _); unfold count_of at 2; simpl;
      rewrite lookup_insert_eq; simpl; rewrite or_zero_Some; lia.
  - destruct (decide _); unfold count_of at 2; simpl;
      rewrite lookup_insert_ne by done; unfold count_of; lia.
Qed.

(** What one core operation keeps. *)
Lemma step_monotone w o :
  daily_logins (store w) ⊆ daily_logins (store (step w o))
  /\ dom (profiles (store (step w o))) = dom (profiles (store w))
  /\ dom (achievement_progress (store w))
     ⊆ dom (achievement_progress (store (step w o)))
  /\ forall k, count_of (store w) k <= count_of (store (step w o)) k.
Proof.
  destruct o as [userId today|userId act now]; simpl.
  - rewrite handleDailyLogin_store.
    destruct (truthy userId) as [u|]; [|split_and!; [done..|intros; lia]].
    destruct (handle_daily_login_keeps (store w) u today) as (Hdom & Hap & Hsub).
    split_and!; [done|done|by rewrite Hap|].
    intros k. unfold count_of. rewrite Hap. lia.
  - destruct (truthy userId) as [u|] eqn:Hid.
    2:{ rewrite (trackActivity_falsy _ _ _ _ Hid). split_and!; [done..|intros; lia]. }
    destruct userId as [u1|]; [|done]. simpl in Hid.
    destruct (decide (u1 = "")) as [|Hu]; [done|]. injection Hid as ->.
    rewrite (trackActivity_store _ _ _ _ Hu).
    destruct (tracked_keeps (store w) u act now) as (Hlog & _ & Hdom & _ & Hsub).
    split_and!; [by rewrite Hlog|done|done|].
    intros k. apply tracked_count_le.
Qed.

(** X11: over any sequence of core operations no login record is
    removed, no Profile row appears or disappears, no counter row is
    removed and no count decreases. *)
Theorem run_monotone ops : forall w,
  daily_logins (store w) ⊆ daily_logins (store (run ops w))
  /\ dom (profiles (store (run ops w))) = dom (profiles (store w))
  /\ dom (achievement_progress (store w))
     ⊆ dom (achievement_progress (store (run ops w)))
  /\ forall k, count_of (store w) k <= count_of (store (run ops w)) k.
Proof.
  unfold run. induction ops as [|o ops IH]; intros w; simpl.
  { split_and!; [done..|intros; lia]. }
  destruct (step_monotone w o) as (Hl & Hp & Ha & Hc).
  destruct (IH (step w o)) as (Hl' & Hp' & Ha' & Hc').
  split_and!.
  - by etrans.
  - by rewrite Hp'.
  - by etrans.
  - intros k. specialize (Hc k). specialize (Hc' k). lia.
Qed.

Lemma step_in_range w o : in_range (store w) -> in_range (store (step w o)).
Proof.
  intros [Hstreak Hcount].
  destruct o as [userId today|userId act now]; simpl.
  - rewrite handleDailyLogin_store.
    destruct (truthy userId) as [u|]; [|done].
    destruct (decide ((u, today) ∈ daily_logins (store w))) as [Hin|Hout].
    { by rewrite (handle_daily_login_present _ _ _ Hin). }
    rewrite (handle_daily_login_new _ _ _ Hout). simpl.
    destruct (int4_fits _) eqn:Hfit; [|done]. simpl.
    apply int4_fits_spec in Hfit.
    split; [|exact Hcount]. simpl.
    destruct (profiles (store w) !! u) as [p0|] eqn:Hp0; [|exact Hstreak].
    intros u' p s Hp Hs.
    destruct (decide (u' = u)) as [->|Hne].
    + rewrite lookup_insert_eq in Hp. injection Hp as <-. simpl in Hs.
      injection Hs as <-. exact Hfit.
    + rewrite lookup_insert_ne in Hp by done. eauto.
  - destruct (truthy userId) as [u|] eqn:Hid.
    2:{ by rewrite (trackActivity_falsy _ _ _ _ Hid). }
    destruct userId as [u1|]; [|done]. simpl in Hid.
    destruct (decide (u1 = "")) as [|Hu]; [done|]. injection Hid as ->.
    rewrite (trackActivity_store _ _ _ _ Hu).
    unfold tracked. destruct (int4_fits _) eqn:Hfit; [|done].
    apply int4_fits_spec in Hfit.
    assert (Hrows : forall c k r,
      <[(u, activity_text act) := Progress
          (count_of (store w) (u, activity_text act) + 1) now c]>
        (achievement_progress (store w)) !! k = Some r ->
      INT_MIN <= current_count r <= INT_MAX).
    { intros c k r Hk.
      destruct (decide ((u, activity_text act) = k)) as [<-|Hne].
      - rewrite lookup_insert_eq in Hk. by injection Hk as <-.
      - rewrite lookup_insert_ne in Hk by done. eauto. }
    destruct (decide _); (split; simpl; [|by apply Hrows]).
    + destruct (profiles (store w) !! u) as [p0|] eqn:Hp0; [|exact Hstreak].
      intros u' p s Hp Hs.
      destruct (decide (u' = u)) as [->|Hne].
      * rewrite lookup_insert_eq in Hp. injection Hp as <-. simpl in Hs. eauto.
      * rewrite lookup_insert_ne in Hp by done. eauto.
    + exact Hstreak.
Qed.

(** X12: if every stored streak and count is an [INTEGER], it is so
    after any sequence of core operations: a value that would leave the
    range is refused, never stored. *)
Theorem run_keeps_integer_range ops : forall w,
  in_range (store w) -> in_range (store (run ops w)).
Proof.
  unfold run. induction ops as [|o ops IH]; intros w Hw; simpl; [done|].
  by apply IH, step_in_range.
Qed.

End HookMore.

(** ** The effects around the hook *)

Section ScreensFacts.

Import Screens.

Implicit Types (d : db) (u : uuid) (today : date) (w : world).

#[local] Arguments or_zero : simpl never.

Lemma handle_daily_login_settles d u today :
  settled (handle_daily_login d u today).2 u today.
Proof.
  destruct (decide ((u, today) ∈ daily_logins d)) as [Hin|Hout].
  - rewrite (handle_daily_login_present _ _ _ Hin). simpl.
    unfold settled. rewrite (handle_daily_login_present _ _ _ Hin). simpl.
    split; [done|]. by intros r [= <-].
  - destruct (handle_daily_login d u today) as [[r|e] d'] eqn:Hcall.
    + pose proof (handle_daily_login_records _ _ _ _ _ Hcall) as Hin.
      simpl. unfold settled. rewrite (handle_daily_login_present _ _ _ Hin).
      simpl. split; [done|]. by intros r' [= <-].
    + rewrite (handle_daily_login_new _ _ _ Hout) in Hcall. simpl in Hcall.
      destruct (int4_fits _) eqn:Hfit; [done|]. injection Hcall as <- <-.
      simpl. unfold settled.
      rewrite (handle_daily_login_new _ _ _ Hout). simpl. by rewrite Hfit.
Qed.

Lemma handleDailyLogin_settled userId u today w :
  truthy userId = Some u ->
  settled (store w) u today ->
  store (handleDailyLogin userId today w).2 = store w
  /\ toasts (handleDailyLogin userId today w).2 = toasts w.
Proof.
  intros Hid [Hstore Hold]. split.
  - by rewrite handleDailyLogin_store, Hid.
  - unfold handleDailyLogin, handleDailyLogin_racing. rewrite Hid. simpl.
    fold (handle_daily_login (store w) u today).
    destruct (handle_daily_login (store w) u today) as [[r|e] d'] eqn:Hcall;
      simpl; [|done].
    rewrite (Hold r eq_refl).
    by destruct (is_new_login r && (0 <? points_earned r)).
Qed.

Lemma AuthProvider_effects_settled n user today : forall w,
  (forall u, truthy user = Some u -> settled (store w) u today) ->
  store (AuthProvider_effects n user today w) = store w
  /\ toasts (AuthProvider_effects n user today w) = toasts w.
Proof.
  induction n as [|n IH]; intros w Hw; [done|]. cbn [AuthProvider_effects].
  unfold AuthProvider_effect. rewrite andb_true_r.
  destruct (truthy user) as [u|] eqn:Hid.
  - destruct user as [u0|]; [|done].
    rewrite bool_decide_eq_true_2 by eauto.
    destruct (handleDailyLogin_settled _ _ today w Hid (Hw u eq_refl)) as [Hs Ht].
    destruct (IH (handleDailyLogin (Some u0) today w).2) as [Hs' Ht'].
    { intros u' [= <-]. rewrite Hs. by apply Hw. }
    by rewrite Hs', Ht'.
  - assert (Hnoop : (if bool_decide (is_Some user)
                     then (handleDailyLogin user today w).2 else w) = w).
    { case_bool_decide; [|done].
      unfold handleDailyLogin, handleDailyLogin_racing. by rewrite Hid. }
    rewrite Hnoop. apply IH. intros u' [=].
Qed.

(** X13: however often the effect of [AuthProvider] runs in one day for
    a signed-in user, the store and the toasts are as after its first
    run: the reward is credited and announced once. *)
Theorem AuthProvider_effect_once_a_day n user today w :
  store (AuthProvider_effects (S n) user today w)
  = store (AuthProvider_effect user false today w)
  /\ toasts (AuthProvider_effects (S n) user today w)
     = toasts (AuthProvider_effect user false today w).
Proof.
  cbn [AuthProvider_effects].
  apply AuthProvider_effects_settled.
  intros u Hid. unfold AuthProvider_effect. rewrite andb_true_r.
  destruct user as [u0|]; [|done].
  rewrite bool_decide_eq_true_2 by eauto.
  rewrite handleDailyLogin_store, Hid.
  apply handle_daily_login_settles.
Qed.

(** X14: after [handleDailyLogin] has returned a row for a user with a
    Profile, the streak the hook holds is the one [fetchCurrentStreak]
    reads: that read changes nothing.  For a user without a Profile row
    the hook holds the streak of the row returned, 1 after a new login,
    while [fetchCurrentStreak] finds no row and logs the error. *)
Theorem login_streak_agrees_with_read u today w r w' :
  u <> "" ->
  handleDailyLogin (Some u) today w = (Some r, w') ->
  match profiles (store w) !! u with
  | Some _ => fetchCurrentStreak (Some u) w' = (w', None)
  | None => fetchCurrentStreak (Some u) w' = (w', Some no_row)
            /\ loginStreak w' = (if is_new_login r then 1 else 0)
  end.
Proof.
  intros Hu. unfold handleDailyLogin, handleDailyLogin_racing, fetchCurrentStreak.
  rewrite (truthy_Some _ Hu). simpl.
  fold (handle_daily_login (store w) u today).
  destruct (decide ((u, today) ∈ daily_logins (store w))) as [Hin|Hout].
  - rewrite (handle_daily_login_present _ _ _ Hin). simpl.
    intros [= <- <-]. simpl.
    destruct (profiles (store w) !! u) as [p|] eqn:Hp; simpl; rewrite ?Hp; [|done].
    unfold setLoginStreak. simpl. by rewrite or_zero_COALESCE.
  - rewrite (handle_daily_login_new _ _ _ Hout). simpl.
    destruct (int4_fits _); simpl; [|done].
    assert (Htoast : forall x, (0 <? reward x) = true).
    { intros x. unfold reward. by destruct (x =? 30). }
    rewrite Htoast. intros [= <- <-]. simpl.
    destruct (profiles (store w) !! u) as [p|] eqn:Hp; simpl.
    + rewrite lookup_insert_eq. simpl. unfold setLoginStreak. simpl.
      by rewrite or_zero_Some.
    + by rewrite Hp.
Qed.

End ScreensFacts.

(** ** The achievements panel *)

Section PanelFacts.

Implicit Types (d : db) (u : uuid) (w : world) (t : string).

#[local] Arguments or_zero : simpl never.

Lemma array_elem rows l x :
  Panel.array_of rows l ->
  x ∈ l <-> exists k r, rows !! k = Some r
                        /\ x = Panel.Row k.2 (current_count r) (bonus_claimed r).
Proof.
  unfold Panel.array_of. intros ->. rewrite list_elem_of_fmap. split.
  - intros ([k r] & -> & Hin). apply elem_of_map_to_list in Hin. eauto.
  - intros (k & r & Hk & ->). exists (k, r). split; [done|].
    by apply elem_of_map_to_list.
Qed.

(** In an array of the rows of one user, [find] by type gives the row
    of the pair, wherever it stands. *)
Lemma find_in_array rows l u t :
  (forall k r, rows !! k = Some r -> k.1 = u) ->
  Panel.array_of rows l ->
  find (fun p => bool_decide (Panel.achievement_type p = t)) l
  = (fun r => Panel.Row t (current_count r) (bonus_claimed r)) <$> rows !! (u, t).
Proof.
  intros Hown Harr.
  destruct (find _ l) as [x|] eqn:Hfind.
  - apply find_some in Hfind as [Hin Htype].
    apply list_elem_of_In, (array_elem _ _ _ Harr) in Hin as ([u' t'] & r & Hk & ->).
    apply bool_decide_eq_true_1 in Htype. simpl in Htype. subst t'.
    pose proof (Hown _ _ Hk) as Hu. simpl in Hu. subst u'.
    by rewrite Hk.
  - destruct (rows !! (u, t)) as [r|] eqn:Hk; [|done]. exfalso.
    pose proof (find_none _ _ Hfind
                  (Panel.Row t (current_count r) (bonus_claimed r))) as Hnone.
    simpl in Hnone. rewrite bool_decide_eq_true_2 in Hnone by done.
    assert (Hfalse : true = false); [|done].
    apply Hnone, list_elem_of_In, (array_elem _ _ _ Harr).
    by exists (u, t), r.
Qed.

(** X15: whatever the order of the array [fetchAchievementProgress]
    hands over, the panel shows the store's rows of the user: for quiz
    and game the badge when [bonus_claimed] is set, else the count over
    the target, capped at the target, a missing row showing 0; for the
    streak the hook's streak over 30, capped at 30.  No entry shows more
    than its target. *)
Theorem panel_shows_store w u l :
  u <> "" ->
  let w' := fetchAchievementProgress (Some u) w in
  Panel.array_of (achievementProgress w') l ->
  Panel.render <$> Panel.achievements (loginStreak w') l =
    [ Panel.Fraction (Z.min (loginStreak w) 30) 30;
      shown_for (count_of (store w) (u, "quiz")) (claimed_of (store w) (u, "quiz")) 30;
      shown_for (count_of (store w) (u, "game")) (claimed_of (store w) (u, "game")) 50 ]
  /\ forall shown target : Z,
       Panel.Fraction shown target
         ∈ Panel.render <$> Panel.achievements (loginStreak w') l ->
       shown <= target.
Proof.
  intros Hu w' Harr.
  assert (Hw' : w' = setAchievementProgress
                       (filter (fun kr => kr.1.1 = u) (achievement_progress (store w)))
                       (request (select_progress u) w)).
  { subst w'. unfold fetchAchievementProgress. by rewrite (truthy_Some _ Hu). }
  assert (Hstreak : loginStreak w' = loginStreak w) by (by rewrite Hw').
  rewrite Hstreak. rewrite Hw' in Harr. simpl in Harr. clear Hw' Hstreak.
  assert (Hown : forall k r,
    filter (fun kr : uuid * string * progress => kr.1.1 = u)
           (achievement_progress (store w)) !! k = Some r -> k.1 = u).
  { intros k r Hk. by apply map_lookup_filter_Some in Hk as [_ ?]. }
  assert (Hget : forall t,
    Panel.getProgressData l t =
      Panel.Row t (count_of (store w) (u, t)) (claimed_of (store w) (u, t))).
  { intros t. unfold Panel.getProgressData.
    rewrite (find_in_array _ _ _ t Hown Harr).
    unfold count_of, claimed_of.
    destruct (achievement_progress (store w) !! (u, t)) as [r|] eqn:Hk.
    - erewrite map_lookup_filter_Some_2; [|exact Hk|done]. simpl.
      by rewrite or_zero_Some.
    - rewrite map_lookup_filter_None_2 by (by left). done. }
  assert (Hlist :
    Panel.render <$> Panel.achievements (loginStreak w) l =
    [ Panel.Fraction (Z.min (loginStreak w) 30) 30;
      shown_for (count_of (store w) (u, "quiz")) (claimed_of (store w) (u, "quiz")) 30;
      shown_for (count_of (store w) (u, "game")) (claimed_of (store w) (u, "game")) 50 ]).
  { unfold Panel.achievements. rewrite !Hget. done. }
  split; [exact Hlist|].
  intros n m. rewrite Hlist. unfold shown_for.
  rewrite !elem_of_cons, elem_of_nil.
  intros [Hin|[Hin|[Hin|[]]]].
  - injection Hin as -> ->. lia.
  - destruct (claimed_of (store w) (u, "quiz")); [done|].
    injection Hin as -> ->. lia.
  - destruct (claimed_of (store w) (u, "game")); [done|].
    injection Hin as -> ->. lia.
Qed.

End PanelFacts.

(** ** Submitting a quiz *)

Section QuizFacts.

Import QuizPage.

Implicit Types (d : db) (u : uuid) (w : world) (pg : page).

#[local] Arguments or_zero : simpl never.

Lemma loadAnsweredQuestions_hook pg : hook (loadAnsweredQuestions pg) = hook pg.
Proof. unfold loadAnsweredQuestions. by destruct (user pg). Qed.

Lemma loadAnsweredQuestions_attempts pg :
  quiz_attempts (loadAnsweredQuestions pg) = quiz_attempts pg.
Proof. unfold loadAnsweredQuestions. by destruct (user pg). Qed.

Lemma loadAnsweredQuestions_selected pg :
  selectedQuiz (loadAnsweredQuestions pg) = selectedQuiz pg.
Proof. unfold loadAnsweredQuestions. by destruct (user pg). Qed.

(** The store after the score was credited. *)
Lemma credit_score_store u score w :
  store (credit_score u score w).1 =
    match profiles (store w) !! u with
    | Some r => Db (<[u := Profile (Some (points_of (store w) u + score))
                                   (current_streak r) (last_login_date r)]>
                      (profiles (store w)))
                   (daily_logins (store w)) (achievement_progress (store w))
    | None => store w
    end.
Proof.
  unfold credit_score, update_profile_points, points_of. simpl.
  by destruct (profiles (store w) !! u).
Qed.

Lemma credit_score_points u score w u' :
  points_of (store (credit_score u score w).1) u' =
    points_of (store w) u' +
    (if bool_decide (u' = u /\ is_Some (profiles (store w) !! u)) then score else 0).
Proof.
  rewrite credit_score_store.
  destruct (profiles (store w) !! u) as [r|] eqn:Hr.
  - destruct (decide (u' = u)) as [->|Hne].
    + rewrite bool_decide_eq_true_2 by eauto.
      unfold points_of at 1. simpl. rewrite lookup_insert_eq. simpl.
      by rewrite or_zero_Some.
    + rewrite bool_decide_eq_false_2 by (by intros [? _]).
      unfold points_of at 1. simpl. rewrite lookup_insert_ne by done.
      unfold points_of. lia.
  - rewrite bool_decide_eq_false_2; [lia|]. intros [_ [? ?]]. done.
Qed.

(** The hook's world after a submit that the store accepts. *)
Lemma handleSubmitQuiz_hook endTime now pg q u t0 :
  selectedQuiz pg = Some q -> user pg = Some u -> quizStartTime pg = Some t0 ->
  hook (handleSubmitQuiz false endTime now pg) =
    trackActivity (Some u) quiz now
      (if 0 <? currentScore pg then (credit_score u (currentScore pg) (hook pg)).1
       else hook pg).
Proof.
  intros Hq Hu Ht. unfold handleSubmitQuiz. rewrite Hq, Hu, Ht.
  destruct (0 <? currentScore pg).
  - destruct (credit_score u (currentScore pg) (hook pg)) as [w e].
    by rewrite loadAnsweredQuestions_hook.
  - by rewrite loadAnsweredQuestions_hook.
Qed.

Lemma credit_score_progress u score w :
  achievement_progress (store (credit_score u score w).1)
  = achievement_progress (store w).
Proof. rewrite credit_score_store. by destruct (profiles (store w) !! u). Qed.

Lemma credit_score_profile u score w :
  is_Some (profiles (store w) !! u) ->
  is_Some (profiles (store (credit_score u score w).1) !! u).
Proof.
  intros [r Hr]. rewrite credit_score_store, Hr. simpl.
  rewrite lookup_insert_eq. eauto.
Qed.

(** X16: a submit that the store accepts, by a user with a Profile,
    records the attempt with a maximum of 10 points a question, closes
    the quiz, and leaves the Profile's points at what they were plus the
    score (when it is positive) plus the 50 points of the quiz milestone
    when this quiz is the one that reaches it: the bonus is added to the
    points the score was just credited to. *)
Theorem submit_credits_score_then_bonus endTime now pg q u t0 :
  selectedQuiz pg = Some q -> user pg = Some u -> quizStartTime pg = Some t0 ->
  u <> "" ->
  is_Some (profiles (store (hook pg)) !! u) ->
  let pg' := handleSubmitQuiz false endTime now pg in
  let d := store (hook pg) in
  points_of (store (hook pg')) u =
    points_of d u
    + (if 0 <? currentScore pg then currentScore pg else 0)
    + (if bool_decide (eligible quiz (count_of d (u, "quiz") + 1)
                                (claimed_of d (u, "quiz")))
       then 50 else 0)
  /\ quiz_attempts pg' =
       (quiz_attempts pg
        ++ [Attempt u (id q) (currentScore pg) (Z.of_nat (questions_length q) * 10)
                    ((endTime - t0) / 1000) (Some (page_answers pg))])%list
  /\ selectedQuiz pg' = None.
Proof.
  intros Hq Huser Ht Hu Hp pg' d. split; [|split].
  - subst pg'. rewrite (handleSubmitQuiz_hook _ _ _ _ _ _ Hq Huser Ht).
    rewrite (trackActivity_store _ _ _ _ Hu), tracked_points. simpl.
    set (w1 := if 0 <? currentScore pg then _ else _).
    assert (Hpoints : points_of (store w1) u
                      = points_of d u
                        + (if 0 <? currentScore pg then currentScore pg else 0)).
    { subst w1. destruct (0 <? currentScore pg); [|fold d; lia].
      rewrite credit_score_points. by rewrite bool_decide_eq_true_2. }
    assert (Hrows : achievement_progress (store w1) = achievement_progress d).
    { subst w1. destruct (0 <? currentScore pg); [|done].
      apply credit_score_progress. }
    assert (Hrow : is_Some (profiles (store w1) !! u)).
    { subst w1. destruct (0 <? currentScore pg); [|done].
      by apply credit_score_profile. }
    rewrite Hpoints. unfold count_of, claimed_of. rewrite Hrows.
    fold (count_of d (u, "quiz")). fold (claimed_of d (u, "quiz")).
    destruct (decide (eligible quiz (count_of d (u, "quiz") + 1)
                               (claimed_of d (u, "quiz")))) as [Hel|Hel].
    + by rewrite !bool_decide_eq_true_2.
    + rewrite (bool_decide_eq_false_2 (eligible _ _ _)) by done.
      rewrite bool_decide_eq_false_2; [done|]. by intros (_ & _ & ?).
  - subst pg'. unfold handleSubmitQuiz. rewrite Hq, Huser, Ht.
    destruct (0 <? currentScore pg);
      [destruct (credit_score u (currentScore pg) (hook pg)) as [w e]|];
      by rewrite loadAnsweredQuestions_attempts.
  - subst pg'. unfold handleSubmitQuiz. rewrite Hq, Huser, Ht.
    destruct (0 <? currentScore pg);
      [destruct (credit_score u (currentScore pg) (hook pg)) as [w e]|];
      by rewrite loadAnsweredQuestions_selected.
Qed.

(** X17: no submit lowers anyone's points, whatever the score held by
    the page; and a submit whose attempt the store refuses writes
    nothing: no attempt, no points, no activity counted, the quiz still
    open, the failure shown. *)
Theorem submit_never_lowers_points rejected endTime now pg u' :
  points_of (store (hook pg)) u'
  <= points_of (store (hook (handleSubmitQuiz rejected endTime now pg))) u'
  /\ hook (handleSubmitQuiz true endTime now pg) = hook pg
  /\ quiz_attempts (handleSubmitQuiz true endTime now pg) = quiz_attempts pg
  /\ selectedQuiz (handleSubmitQuiz true endTime now pg) = selectedQuiz pg
  /\ (is_Some (selectedQuiz pg) -> is_Some (user pg) -> is_Some (quizStartTime pg) ->
      sonner (handleSubmitQuiz true endTime now pg)
      = error_failed_to_submit :: sonner pg).
Proof.
  assert (Hrejected :
    hook (handleSubmitQuiz true endTime now pg) = hook pg
    /\ quiz_attempts (handleSubmitQuiz true endTime now pg) = quiz_attempts pg
    /\ selectedQuiz (handleSubmitQuiz true endTime now pg) = selectedQuiz pg
    /\ (is_Some (selectedQuiz pg) -> is_Some (user pg) -> is_Some (quizStartTime pg) ->
        sonner (handleSubmitQuiz true endTime now pg)
        = error_failed_to_submit :: sonner pg)).
  { unfold handleSubmitQuiz.
    destruct (selectedQuiz pg) as [q|] eqn:Hq, (user pg) as [u|],
      (quizStartTime pg) as [t0|]; simpl; split_and!; try done;
      by intros [? ?] [? ?] [? ?]. }
  split; [|exact Hrejected].
  destruct rejected; [by destruct Hrejected as (-> & _)|].
  destruct (selectedQuiz pg) as [q|] eqn:Hq; cycle 1.
  { unfold handleSubmitQuiz. by rewrite Hq. }
  destruct (user pg) as [u|] eqn:Huser; cycle 1.
  { unfold handleSubmitQuiz. by rewrite Hq, Huser. }
  destruct (quizStartTime pg) as [t0|] eqn:Ht; cycle 1.
  { unfold handleSubmitQuiz. by rewrite Hq, Huser, Ht. }
  rewrite (handleSubmitQuiz_hook _ _ _ _ _ _ Hq Huser Ht).
  set (w1 := if 0 <? currentScore pg then _ else _).
  assert (Hcredit : points_of (store (hook pg)) u' <= points_of (store w1) u').
  { subst w1. destruct (Z.ltb_spec 0 (currentScore pg)); [|lia].
    rewrite credit_score_points. case_bool_decide; lia. }
  destruct (step_points w1 (Track (Some u) quiz now) u') as (delta & Hdelta & Hstep).
  simpl in Hstep. lia.
Qed.

(** X18: after a submit that the store accepts, every question that was
    answered in it is among the answered questions the page reloads,
    under the key made of the quiz identifier and the question index. *)
Theorem submitted_answers_are_answered endTime now pg q u t0 (questionIndex : nat) :
  selectedQuiz pg = Some q -> user pg = Some u -> quizStartTime pg = Some t0 ->
  questionIndex ∈ dom (page_answers pg) ->
  id q +:+ "-" +:+ pretty questionIndex
    ∈ answeredQuestions (handleSubmitQuiz false endTime now pg).
Proof.
  intros Hq Huser Ht Hin. unfold handleSubmitQuiz. rewrite Hq, Huser, Ht.
  set (row := Attempt u (id q) (currentScore pg) _ _ (Some (page_answers pg))).
  assert (Hkeys : forall pg0,
    user pg0 = Some u -> row ∈ quiz_attempts pg0 ->
    id q +:+ "-" +:+ pretty questionIndex
      ∈ answeredQuestions (loadAnsweredQuestions pg0)).
  { intros pg0 Hu0 Hrow. unfold loadAnsweredQuestions. rewrite Hu0. simpl.
    apply elem_of_union_list. exists (answered_keys row). split.
    - apply list_elem_of_fmap. exists row. split; [done|].
      apply list_elem_of_filter. split; [done|exact Hrow].
    - unfold answered_keys. simpl. apply elem_of_map. eauto. }
  destruct (0 <? currentScore pg);
    [destruct (credit_score u (currentScore pg) (hook pg)) as [w e]|];
    apply Hkeys; simpl; try done;
    apply elem_of_app; right; apply list_elem_of_singleton; done.
Qed.

End QuizFacts.

(** ** The further properties at concrete inputs *)

Section MoreWitnesses.

Import Screens QuizPage.

(** X1 at a streak of 2147483647 continued from yesterday. *)
Lemma handle_daily_login_fails_iff_witness :
  (handle_daily_login streak_max "u" 100).1 = Err numeric_value_out_of_range
  /\ (handle_daily_login streak_max "u" 100).2 = streak_max.
Proof.
  destruct (handle_daily_login_fails_iff streak_max "u" 100 numeric_value_out_of_range)
    as [Hiff Hstore].
  assert (Herr : (handle_daily_login streak_max "u" 100).1
                 = Err numeric_value_out_of_range).
  { apply Hiff. split; [reflexivity|]. split; [by vm_compute|].
    exists (Profile (Some 0) (Some 2147483647) (Some 99)).
    split; [reflexivity|]. split; [reflexivity|].
    intros [_ Hle]. by vm_compute in Hle. }
  split; [exact Herr|exact (Hstore Herr)].
Defined.

(** X3 at the day after the login of day 20. *)
Lemma login_on_later_day_witness :
  handle_daily_login streak5 "u" 20 = (Ok (LoginRow 10 6 true), streak5_logged)
  /\ (handle_daily_login streak5_logged "u" 21).1 = Ok (LoginRow 10 7 true)
  /\ (handle_daily_login streak5_logged "u" 23).1 = Ok (LoginRow 10 1 true).
Proof.
  assert (Hcall : handle_daily_login streak5 "u" 20
                  = (Ok (LoginRow 10 6 true), streak5_logged)) by (by vm_compute).
  assert (Hp : is_Some (profiles streak5 !! "u")) by (by eexists).
  split; [exact Hcall|]. split.
  - apply (login_on_later_day streak5 "u" 20 _ _ 1 Hp Hcall eq_refl);
      by vm_compute.
  - apply (login_on_later_day streak5 "u" 20 _ _ 3 Hp Hcall eq_refl);
      by vm_compute.
Defined.

(** X4 at thirty days in a row after a gap. *)
Lemma login_days_from_reset_witness :
  profiles (login_days 30 "u" 20 back_after_gap) !! "u"
  = Some (Profile (Some 410) (Some 30) (Some 49)).
Proof.
  apply (login_days_from_reset 30 "u" 20 back_after_gap
           (Profile (Some 70) (Some 7) (Some 17))).
  - reflexivity.
  - by vm_compute.
  - intros k _. apply not_elem_of_empty.
  - lia.
  - by vm_compute.
Defined.

(** X7 at the thirtieth quiz. *)
Lemma trackActivity_refreshes_witness :
  let w' := trackActivity (Some "u") quiz 7 quiz29 in
  achievementProgress w'
  = filter (fun kr => kr.1.1 = "u") (achievement_progress (store w'))
  /\ current_count <$> achievementProgress w' !! ("u", "quiz") = Some 30.
Proof.
  assert (Hu : "u" <> "") by discriminate.
  exact (trackActivity_refreshes quiz29 "u" quiz 7 Hu).
Defined.


(** X9 at thirty-five quizzes from no progress. *)
Lemma track_many_bonus_once_witness :
  points_of (store (track_many "u" quiz (Z.of_nat <$> seq 1 35) (fresh streak5))) "u"
  = 100 + 50.
Proof.
  assert (Hu : "u" <> "") by discriminate.
  etrans.
  - apply (track_many_bonus_once "u" quiz (Z.of_nat <$> seq 1 35) (fresh streak5) Hu);
      by vm_compute.
  - by vm_compute.
Defined.

(** X10 at the thirtieth quiz of a user without a Profile row. *)
Lemma milestone_without_profile_witness :
  let w' := trackActivity (Some "ghost") quiz 7 ghost29 in
  profiles (store w') = profiles (store ghost29)
  /\ claimed_of (store w') ("ghost", "quiz") = true
  /\ update_points "ghost" 50 ∈ calls w'.
Proof.
  assert (Hu : "ghost" <> "") by discriminate.
  assert (Hp : profiles (store ghost29) !! "ghost" = None) by reflexivity.
  assert (Hel : eligible quiz (count_of (store ghost29) ("ghost", activity_text quiz) + 1)
                         (claimed_of (store ghost29) ("ghost", activity_text quiz))).
  { left. by vm_compute. }
  destruct (milestone_without_profile ghost29 "ghost" quiz 7 Hu Hp Hel)
    as (Hprofiles & Hclaimed & Hcall & _).
  split; [exact Hprofiles|]. split; [exact Hclaimed|exact Hcall].
Defined.

(** X12 at a store of one Profile and one counter. *)
Lemma run_keeps_integer_range_witness :
  in_range (store quiz29)
  /\ in_range (store (run [Track (Some "u") quiz 7; Login (Some "u") 20] quiz29)).
Proof.
  assert (Hrange : in_range (store quiz29)).
  { split.
    - intros u p s Hp Hs.
      change (profiles (store quiz29))
        with ({[ "u" := Profile (Some 100) (Some 5) (Some 19) ]} : gmap string profile)
        in Hp.
      apply lookup_singleton_Some in Hp as [_ <-].
      injection Hs as <-. by vm_compute.
    - intros k r Hk.
      change (achievement_progress (store quiz29))
        with ({[ ("u", "quiz") := Progress 29 6 false ]}
              : gmap (string * string) progress) in Hk.
      apply lookup_singleton_Some in Hk as [_ <-]. by vm_compute. }
  split; [exact Hrange|].
  exact (run_keeps_integer_range _ quiz29 Hrange).
Defined.

(** X14 at the first login of day 20. *)
Lemma login_streak_agrees_with_read_witness :
  let w' := (handleDailyLogin (Some "u") 20 (fresh streak5)).2 in
  loginStreak w' = 6 /\ fetchCurrentStreak (Some "u") w' = (w', None).
Proof.
  assert (Hu : "u" <> "") by discriminate.
  assert (Hcall : handleDailyLogin (Some "u") 20 (fresh streak5)
                  = (Some (LoginRow 10 6 true),
                     (handleDailyLogin (Some "u") 20 (fresh streak5)).2))
    by (by vm_compute).
  split; [reflexivity|].
  exact (login_streak_agrees_with_read "u" 20 (fresh streak5) _ _ Hu Hcall).
Defined.

(** X15 at a user with both counters, the array in either order. *)
Lemma panel_shows_store_witness :
  let w' := fetchAchievementProgress (Some "u") both_counters in
  Panel.array_of (achievementProgress w')
                 [Panel.Row "quiz" 30 true; Panel.Row "game" 12 false]
  /\ Panel.render <$> Panel.achievements (loginStreak w')
                        [Panel.Row "quiz" 30 true; Panel.Row "game" 12 false]
     = [Panel.Fraction 30 30; Panel.Completed; Panel.Fraction 12 50]
  /\ Panel.render <$> Panel.achievements (loginStreak w')
                        [Panel.Row "game" 12 false; Panel.Row "quiz" 30 true]
     = [Panel.Fraction 30 30; Panel.Completed; Panel.Fraction 12 50].
Proof.
  assert (Hu : "u" <> "") by discriminate.
  assert (Harr : Panel.array_of
            (achievementProgress (fetchAchievementProgress (Some "u") both_counters))
            [Panel.Row "quiz" 30 true; Panel.Row "game" 12 false]).
  { unfold Panel.array_of. vm_compute. apply perm_swap || reflexivity. }
  assert (Hrev : Panel.array_of
            (achievementProgress (fetchAchievementProgress (Some "u") both_counters))
            [Panel.Row "game" 12 false; Panel.Row "quiz" 30 true]).
  { unfold Panel.array_of. vm_compute. apply perm_swap || reflexivity. }
  split; [exact Harr|]. split.
  - exact (proj1 (panel_shows_store both_counters "u" _ Hu Harr)).
  - exact (proj1 (panel_shows_store both_counters "u" _ Hu Hrev)).
Defined.

(** X16 at the thirtieth quiz, submitted with a score of 20. *)
Lemma submit_credits_score_then_bonus_witness :
  let pg' := handleSubmitQuiz false 61500 61501 submitting in
  points_of (store (hook pg')) "u" = 100 + 20 + 50
  /\ quiz_attempts pg'
     = [Attempt "u" "q1" 20 30 60 (Some {[ 0%nat := "a"; 2%nat := "c" ]})]
  /\ selectedQuiz pg' = None.
Proof.
  assert (Hu : "u" <> "") by discriminate.
  assert (Hp : is_Some (profiles (store (hook submitting)) !! "u")) by (by eexists).
  destruct (submit_credits_score_then_bonus 61500 61501 submitting
              (QuizOf "q1" 3) "u" 1000 eq_refl eq_refl eq_refl Hu Hp)
    as (Hpoints & Hattempts & Hclosed).
  split; [|split; [exact Hattempts|exact Hclosed]].
  etrans; [exact Hpoints|]. by vm_compute.
Defined.

(** X17 at a submit the store refuses. *)
Lemma submit_never_lowers_points_witness :
  hook (handleSubmitQuiz true 61500 61501 submitting) = hook submitting
  /\ sonner (handleSubmitQuiz true 61500 61501 submitting) = [error_failed_to_submit].
Proof.
  destruct (submit_never_lowers_points true 61500 61501 submitting "u")
    as (_ & Hhook & _ & _ & Hshown).
  split; [exact Hhook|].
  apply Hshown; by eexists.
Defined.

(** X18 at the two questions answered. *)
Lemma submitted_answers_are_answered_witness :
  (2%nat ∈ dom (page_answers submitting))
  /\ "q1-2" ∈ answeredQuestions (handleSubmitQuiz false 61500 61501 submitting).
Proof.
  assert (Hin : 2%nat ∈ dom (page_answers submitting))
    by (apply elem_of_dom; by eexists).
  split; [exact Hin|].
  exact (submitted_answers_are_answered 61500 61501 submitting
           (QuizOf "q1" 3) "u" 1000 2 eq_refl eq_refl eq_refl Hin).
Defined.

End MoreWitnesses.
